(** * Mindual web client: the chat submission pipeline and the calendar widget

    A shallow embedding of [web/src/App.jsx].  The component's hooks are
    modelled as a store record, [handleSubmit] and [fetchEvents] as programs
    in a small state/exception/trace monad, the payloads returned by the two
    back ends as JSON values, and the calendar grid as a pure function of the
    reference date. *)

From Stdlib Require Import ZArith List String Ascii Bool Lia DecimalString.
From Equations Require Import Equations.
Import ListNotations.

Open Scope string_scope.
Open Scope Z_scope.

(** ** Host library: calendar dates

    [Date] objects are modelled by the number of the local day they fall on,
    counted from 1970-01-01 (day 0, a Thursday).  The four getters the
    component calls ([getFullYear], [getMonth], [getDate], [getDay]) depend on
    the local day only.  The local time zone is taken to have no offset
    transition at midnight, and every date handled lies inside the range of
    valid time values, so the constructor never yields an invalid date. *)
Module JsDate.

Definition t := Z.

(** First day of the March-based month [mp] (0 = March), counted from
    1 March. *)
Definition doy_of_month (mp : Z) : Z := (153 * mp + 2) / 5.

(** Day number of day [d] of month index [m] (0 = January) of year [y], in
    the proleptic Gregorian calendar; [d] is not range-checked, as in
    [MakeDay]. *)
Definition days_from_civil (y m d : Z) : Z :=
  let y' := if m <? 2 then y - 1 else y in
  let era := y' / 400 in
  let yoe := y' mod 400 in
  let mp := if m <? 2 then m + 10 else m - 2 in
  let doy := doy_of_month mp + d - 1 in
  let doe := yoe * 365 + yoe / 4 - yoe / 100 + doy in
  era * 146097 + doe - 719468.

(** The pieces of the inverse: the year of a 400-year era a day of the era
    falls in, the day of that (March-based) year, and its month. *)
Definition year_of_era (doe : Z) : Z :=
  (doe - doe / 1460 + doe / 36524 - doe / 146096) / 365.

Definition day_of_year (yoe doe : Z) : Z :=
  doe - (365 * yoe + yoe / 4 - yoe / 100).

Definition month_of_doy (doy : Z) : Z := (5 * doy + 2) / 153.

(** Year, month index and day of the month of a day number. *)
Definition civil_from_days (z : Z) : Z * Z * Z :=
  let z' := z + 719468 in
  let era := z' / 146097 in
  let doe := z' mod 146097 in
  let yoe := year_of_era doe in
  let doy := day_of_year yoe doe in
  let mp := month_of_doy doy in
  let d := doy - doy_of_month mp + 1 in
  let m := if mp <? 10 then mp + 2 else mp - 10 in
  let y := yoe + era * 400 in
  ((if m <? 2 then y + 1 else y), m, d).

(** [MakeDay(year, month, date)]: the month index overflows into the year,
    the day of the month is an offset from day 1. *)
Definition make_day (year month date : Z) : Z :=
  days_from_civil (year + month / 12) (month mod 12) 1 + date - 1.

(** [new Date(year, monthIndex, day)]: a year from 0 to 99 means 1900 + year. *)
Definition make (year monthIndex day : Z) : t :=
  let yr := if (0 <=? year) && (year <=? 99) then 1900 + year else year in
  make_day yr monthIndex day.

Definition getFullYear (dt : t) : Z := fst (fst (civil_from_days dt)).
Definition getMonth (dt : t) : Z := snd (fst (civil_from_days dt)).
Definition getDate (dt : t) : Z := snd (civil_from_days dt).

(** [WeekDay]: 0 is Sunday; day 0 was a Thursday. *)
Definition getDay (dt : t) : Z := (dt + 4) mod 7.

Definition is_leap (y : Z) : bool :=
  ((y mod 4 =? 0) && negb (y mod 100 =? 0)) || (y mod 400 =? 0).

(** Length of month index [m] of year [y], by the usual table. *)
Definition days_in_month (y m : Z) : Z :=
  if m =? 1 then (if is_leap y then 29 else 28)
  else if (m =? 3) || (m =? 5) || (m =? 8) || (m =? 10) then 30
  else 31.

End JsDate.

(** Consecutive integers [lo], [lo + 1], ..., [n] of them. *)
Fixpoint Zrange (lo : Z) (n : nat) : list Z :=
  match n with
  | O => []
  | S n' => lo :: Zrange (lo + 1) n'
  end.

Definition all_in (lo : Z) (n : nat) (f : Z -> bool) : bool :=
  forallb f (Zrange lo n).

(** One month of one year: its first and last day fall in the same era, the
    same year of the era and the same month, and its first day reads back as
    day 1 of month [m] of year [y]. *)
Definition month_check (y m : Z) : bool :=
  let n := JsDate.days_in_month y m in
  let z1 := JsDate.days_from_civil y m 1 + 719468 in
  let era := z1 / 146097 in
  let doe1 := z1 mod 146097 in
  let yoe := JsDate.year_of_era doe1 in
  let doy1 := JsDate.day_of_year yoe doe1 in
  let mp := JsDate.month_of_doy doy1 in
  (1 <=? n) && (n <=? 31) &&
  ((z1 + n - 1) / 146097 =? era) &&
  (JsDate.year_of_era (doe1 + n - 1) =? yoe) &&
  (JsDate.month_of_doy (doy1 + n - 1) =? mp) &&
  (doy1 - JsDate.doy_of_month mp + 1 =? 1) &&
  ((if mp <? 10 then mp + 2 else mp - 10) =? m) &&
  ((if m <? 2 then yoe + era * 400 + 1 else yoe + era * 400) =? y).

(** The first day of the next month follows the last day of this one. *)
Definition month_end_check (y m : Z) : bool :=
  JsDate.days_from_civil (y + (m + 1) / 12) ((m + 1) mod 12) 1
  =? JsDate.days_from_civil y m 1 + JsDate.days_in_month y m.

(** ** Host library: strings

    A JavaScript string is modelled by the bytes of its UTF-8 encoding; on
    well-formed text concatenation, prefix tests and substring tests agree
    with those on UTF-16 code units. *)

Definition nl : string := String (ascii_of_nat 10) EmptyString.

(** Template-literal rendering of an integral number. *)
Definition string_of_Z (z : Z) : string := NilZero.string_of_int (Z.to_int z).

Fixpoint repeat_string (n : nat) (pad : string) : string :=
  match n with
  | O => EmptyString
  | S n' => pad ++ repeat_string n' pad
  end.

(** [s.padStart(target, pad)] for a one-character [pad]. *)
Definition padStart (s : string) (target : nat) (pad : string) : string :=
  repeat_string (target - String.length s) pad ++ s.

Definition digit (n : Z) : ascii := ascii_of_nat (48 + Z.to_nat n).

(** A number from 0 to 99 written with exactly two decimal digits. *)
Definition two_digits (n : Z) : string :=
  String (digit (n / 10)) (String (digit (n mod 10)) EmptyString).

(** The date key "YYYY-MM-DD" of day [d] of month index [m] of year [y]. *)
Definition date_key (y m d : Z) : string :=
  string_of_Z y ++ "-" ++ two_digits (m + 1) ++ "-" ++ two_digits d.

(** ** The calendar widget *)
Module Calendar.

Record cell := mkCell { key : string; label : Z; isToday : bool }.

Record calendar := mkCalendar { month_label : string; cells : list (option cell) }.

(** [formatISODate], lines 17-22. *)
Definition formatISODate (date : JsDate.t) : string :=
  let year := JsDate.getFullYear date in
  let month := padStart (string_of_Z (JsDate.getMonth date + 1)) 2 "0" in
  let day := padStart (string_of_Z (JsDate.getDate date)) 2 "0" in
  string_of_Z year ++ "-" ++ month ++ "-" ++ day.

(** [today], lines 24-27: midnight of the day the component was mounted. *)
Definition today (now : JsDate.t) : JsDate.t :=
  JsDate.make (JsDate.getFullYear now) (JsDate.getMonth now) (JsDate.getDate now).

(** First loop, lines 45-47: [startWeekday] empty cells. *)
Definition leading (startWeekday : Z) : list (option cell) :=
  repeat None (Z.to_nat startWeekday).

(** Second loop, lines 49-56, unrolled from [day] for [n] iterations. *)
Fixpoint day_cells (year monthIndex todayDate : Z) (day : Z) (n : nat)
  : list (option cell) :=
  match n with
  | O => []
  | S n' =>
      let currentDate := JsDate.make year monthIndex day in
      Some {| key := formatISODate currentDate;
              label := day;
              isToday := day =? todayDate |}
      :: day_cells year monthIndex todayDate (day + 1) n'
  end.

(** Third loop, lines 58-60: push empty cells while the length is not a
    multiple of 7.  [week_deficit] is the number of iterations left. *)
Definition week_deficit (n : nat) : nat := ((7 - n mod 7) mod 7)%nat.

Definition week_full (n : nat) : bool := Nat.eqb (n mod 7) 0.

Definition week_full_dec (n : nat) : {week_full n = true} + {week_full n = false} :=
  match week_full n as b return {b = true} + {b = false} with
  | true => left eq_refl
  | false => right eq_refl
  end.

Arguments week_deficit : simpl never.
Arguments week_full : simpl never.

Equations? pad_week (cs : list (option cell)) : list (option cell)
  by wf (week_deficit (List.length cs)) lt :=
  pad_week cs with week_full_dec (List.length cs) => {
    | left _ := cs;
    | right Hfull := pad_week (cs ++ [None])%list }.
Proof.
  rewrite length_app. cbn [List.length].
  revert Hfull. generalize (List.length cs). intros n.
  unfold week_full, week_deficit. intros Hn. apply Nat.eqb_neq in Hn.
  pose proof (Nat.mod_upper_bound n 7 ltac:(lia)) as Hlt.
  rewrite (Nat.Div0.add_mod n 1 7).
  change (1 mod 7)%nat with 1%nat.
  remember (n mod 7)%nat as r.
  assert (Hr : (r = 1 \/ r = 2 \/ r = 3 \/ r = 4 \/ r = 5 \/ r = 6)%nat) by lia.
  destruct Hr as [-> | [-> | [-> | [-> | [-> | ->]]]]]; cbn; lia.
Qed.

(** The memoised [calendar] value, lines 36-66. *)
Definition make_calendar (today : JsDate.t) : calendar :=
  let year := JsDate.getFullYear today in
  let monthIndex := JsDate.getMonth today in
  let firstDay := JsDate.make year monthIndex 1 in
  let startWeekday := JsDate.getDay firstDay in
  let daysInMonth := JsDate.getDate (JsDate.make year (monthIndex + 1) 0) in
  let cells0 := leading startWeekday in
  let cells1 :=
    (cells0 ++ day_cells year monthIndex (JsDate.getDate today) 1 (Z.to_nat daysInMonth))%list in
  {| month_label := string_of_Z year ++ "년 " ++ string_of_Z (monthIndex + 1) ++ "월";
     cells := pad_week cells1 |}.

End Calendar.

(** ** Host library: JSON values and the operations applied to them *)

Inductive result (E A : Type) : Type :=
| Ok (a : A)
| Throw (e : E).

Arguments Ok {E A} a.
Arguments Throw {E A} e.

Definition rbind {E A B} (r : result E A) (k : A -> result E B) : result E B :=
  match r with
  | Ok a => k a
  | Throw e => Throw e
  end.

Declare Scope result_scope.
Delimit Scope result_scope with result.
Notation "x <- r ;; k" := (rbind r (fun x => k))
  (at level 61, r at next level, right associativity) : result_scope.

(** [s.includes(needle)] on strings. *)
Fixpoint string_includes (s needle : string) : bool :=
  String.prefix needle s ||
  match s with
  | EmptyString => false
  | String _ s' => string_includes s' needle
  end.

(** Endpoints, lines 5-7.  The origin of the question-answering endpoint's
    URL is computed once, when the module is loaded. *)
Definition RAG_API_URL : string := "http://127.0.0.1:8000/ask".
Definition CAL_API_URL : string := "http://localhost:8100/calendar/events".
Definition BACKEND_BASE_URL : string := "http://127.0.0.1:8000".

Definition citation_marker : string := "참고:".

Definition apology_text : string :=
  "죄송해요, RAG 서버에 연결하는 데 문제가 발생했습니다." ++ nl ++
  "서버 상태를 확인한 후 다시 시도해 주세요.".

Definition placeholder_text : string := "응답을 가져오지 못했어요.".

(** The citation line of line 204, for a page number rendered as [p]. *)
Definition citation_line (p : string) : string :=
  nl ++ nl ++ "(참고: 매뉴얼 p." ++ p ++ " 기반 답변)".

Inductive role := User | Agent.

Definition role_eqb (a b : role) : bool :=
  match a, b with
  | User, User | Agent, Agent => true
  | _, _ => false
  end.

(** The attached [File]: its name and an opaque handle on its bytes. *)
Record file := mkFile { file_name : string; file_blob : nat }.

(** What the component takes from its host.  JSON numbers are kept abstract:
    the component only tests them for truthiness, renders them in template
    literals and reads them off the clock. *)
Class Host := {
  number : Type;
  number_truthy : number -> bool;       (* false for 0, -0 and NaN *)
  number_to_string : number -> string;  (* [ToString] on numbers *)
  trim : string -> string               (* [String.prototype.trim] *)
}.

Section Model.

Context {H : Host}.

(** Exceptions the component can observe. *)
Inductive exn : Type :=
| TypeError                   (* property read or method call on a wrong value *)
| HttpError (status : number) (* [new Error(`... error: ${resp.status}`)] *)
| NetworkError                (* [fetch] rejected *)
| SyntaxError.                (* [resp.json()] rejected: the body is not JSON *)

(** A value read from a parsed JSON body, or [undefined] for a property that
    is not there.  An object is the list of its own properties, each key
    occurring once. *)
#[warnings="-register-all"]
Inductive value : Type :=
| VUndefined
| VNull
| VBool (b : bool)
| VNum (n : number)
| VStr (s : string)
| VArr (items : list value)
| VObj (fields : list (string * value)).

Definition res := result exn.

Fixpoint lookup (k : string) (fields : list (string * value)) : value :=
  match fields with
  | [] => VUndefined
  | (k', v) :: rest => if String.eqb k k' then v else lookup k rest
  end.

Definition has_key (k : string) (fields : list (string * value)) : bool :=
  existsb (fun kv => String.eqb k (fst kv)) fields.

Definition nullish (v : value) : bool :=
  match v with
  | VUndefined | VNull => true
  | _ => false
  end.

(** The property [k] of a value that has properties.  The keys the component
    reads name no built-in property, so a primitive or an array has none of
    them. *)
Definition field (v : value) (k : string) : value :=
  match v with
  | VObj fields => lookup k fields
  | _ => VUndefined
  end.

(** [v.k]: reading from [null] or [undefined] throws. *)
Definition get_prop (v : value) (k : string) : res value :=
  if nullish v then Throw TypeError else Ok (field v k).

(** [a ?? b], with [b] already evaluated. *)
Definition coalesce (a b : value) : value := if nullish a then b else a.

Definition truthy (v : value) : bool :=
  match v with
  | VUndefined | VNull => false
  | VBool b => b
  | VNum n => number_truthy n
  | VStr s => negb (String.eqb s "")
  | VArr _ | VObj _ => true
  end.


(** [v === s] for a string literal [s]. *)
Definition strict_eq_string (v : value) (s : string) : bool :=
  match v with
  | VStr s' => String.eqb s' s
  | _ => false
  end.

(** [ToString]: arrays join their elements with commas ([null] elements
    render empty); a plain object renders as "[object Object]" unless it
    shadows [toString] with an own (hence non-callable) property. *)
Fixpoint to_string (v : value) : res string :=
  match v with
  | VUndefined => Ok "undefined"
  | VNull => Ok "null"
  | VBool true => Ok "true"
  | VBool false => Ok "false"
  | VNum n => Ok (number_to_string n)
  | VStr s => Ok s
  | VArr items =>
      (fix join (l : list value) : res string :=
         match l with
         | [] => Ok ""
         | x :: rest =>
             let sx := if nullish x then Ok "" else to_string x in
             match rest with
             | [] => sx
             | _ :: _ =>
                 (a <- sx ;; b <- join rest ;; Ok (a ++ "," ++ b))%result
             end
         end) items
  | VObj fields =>
      if has_key "toString" fields then Throw TypeError else Ok "[object Object]"
  end.

(** [v.includes(needle)]: a string method and an array method; any other
    value has no callable [includes]. *)
Definition includes (v : value) (needle : string) : res bool :=
  match v with
  | VStr s => Ok (string_includes s needle)
  | VArr items => Ok (existsb (fun x => strict_eq_string x needle) items)
  | _ => Throw TypeError
  end.

(** [v.startsWith(p)]: a string method only. *)
Definition startsWith (v : value) (p : string) : res bool :=
  match v with
  | VStr s => Ok (String.prefix p s)
  | _ => Throw TypeError
  end.

(** [v + s] for a string [s]. *)
Definition add_string (v : value) (s : string) : res value :=
  (t <- to_string v ;; Ok (VStr (t ++ s)))%result.

(** ** The component: store, environment and effect monad *)

(** A chat message.  A property the object literal leaves out reads as
    [undefined]. *)
Record message := mkMessage {
  id : string;
  msg_role : role;
  name : string;
  content : value;
  imageUrl : value;
  variant : value;
  sourceImage : value
}.

(** The state hooks of [App], and the file input behind [fileInputRef]
    ([None] while the ref is not attached). *)
Record store := mkStore {
  messages : list message;
  question : string;
  loading : bool;
  imageFile : option file;
  imagePreviewUrl : option string;
  calendarEvents : value;
  fileInput : option string
}.

Inductive request :=
| AskRequest (query k : string) (upload : option file)   (* POST RAG_API_URL, multipart *)
| CalendarRequest (url : string).                        (* GET *)

(** What a [fetch] settles to: a rejection, or a response whose body parses
    as JSON ([Some]) or does not ([None]). *)
Record response := mkResponse { ok : bool; status : number; body : option value }.

Inductive fetch_outcome :=
| Rejected
| Resolved (r : response).

(** Everything the environment decides during one run. *)
Record world := mkWorld {
  ask_outcome : fetch_outcome;
  cal_outcome : fetch_outcome;
  time_submit : number;     (* [Date.now()] when the user message is built *)
  time_reply : number       (* [Date.now()] when the agent message is built *)
}.

(** Observable steps, in program order. *)
Inductive event :=
| EvPreventDefault
| EvFetch (r : request)
| EvSettled (r : request)
| EvConsoleError (e : exn)
| EvAppendMessage (m : message)
| EvSetQuestion (q : string)
| EvSetLoading (b : bool)
| EvSetImageFile (f : option file)
| EvSetImagePreviewUrl (u : option string)
| EvSetCalendarEvents (v : value)
| EvClearFileInput.

Definition M (A : Type) : Type := store -> res A * store * list event.

Definition ret {A} (a : A) : M A := fun s => (Ok a, s, []).

Definition bind {A B} (m : M A) (k : A -> M B) : M B :=
  fun s =>
    match m s with
    | (Ok a, s1, t1) => let '(r, s2, t2) := k a s1 in (r, s2, (t1 ++ t2)%list)
    | (Throw e, s1, t1) => (Throw e, s1, t1)
    end.

Definition throw {A} (e : exn) : M A := fun s => (Throw e, s, []).

Definition lift {A} (r : res A) : M A := fun s => (r, s, []).

Definition emit (e : event) : M unit := fun s => (Ok tt, s, [e]).

Definition update (f : store -> store) (e : event) : M unit :=
  fun s => (Ok tt, f s, [e]).

(** [try { body } catch (err) { handler err }]. *)
Definition try_catch {A} (body : M A) (handler : exn -> M A) : M A :=
  fun s =>
    match body s with
    | (Ok a, s1, t1) => (Ok a, s1, t1)
    | (Throw e, s1, t1) => let '(r, s2, t2) := handler e s1 in (r, s2, (t1 ++ t2)%list)
    end.

(** [try { body } finally { fin }]: [fin] always runs; its own exception,
    if any, replaces the outcome of [body]. *)
Definition try_finally {A} (body : M A) (fin : M unit) : M A :=
  fun s =>
    let '(r, s1, t1) := body s in
    match fin s1 with
    | (Ok _, s2, t2) => (r, s2, (t1 ++ t2)%list)
    | (Throw e, s2, t2) => (Throw e, s2, (t1 ++ t2)%list)
    end.

Declare Scope prog_scope.
Delimit Scope prog_scope with prog.
Notation "x <- m ;; k" := (bind m (fun x => k))
  (at level 61, m at next level, right associativity) : prog_scope.
Notation "m ;; k" := (bind m (fun _ => k))
  (at level 61, right associativity) : prog_scope.

(** State setters.  [setMessages] is only ever called with the functional
    update [(prev) => [...prev, m]]. *)
Definition setMessages_append (m : message) : M unit :=
  update (fun s => mkStore (messages s ++ [m])%list (question s) (loading s) (imageFile s)
                           (imagePreviewUrl s) (calendarEvents s) (fileInput s))
         (EvAppendMessage m).

Definition setQuestion (q : string) : M unit :=
  update (fun s => mkStore (messages s) q (loading s) (imageFile s)
                           (imagePreviewUrl s) (calendarEvents s) (fileInput s))
         (EvSetQuestion q).

Definition setLoading (b : bool) : M unit :=
  update (fun s => mkStore (messages s) (question s) b (imageFile s)
                           (imagePreviewUrl s) (calendarEvents s) (fileInput s))
         (EvSetLoading b).

Definition setImageFile (f : option file) : M unit :=
  update (fun s => mkStore (messages s) (question s) (loading s) f
                           (imagePreviewUrl s) (calendarEvents s) (fileInput s))
         (EvSetImageFile f).

Definition setImagePreviewUrl (u : option string) : M unit :=
  update (fun s => mkStore (messages s) (question s) (loading s) (imageFile s)
                           u (calendarEvents s) (fileInput s))
         (EvSetImagePreviewUrl u).

Definition setCalendarEvents (v : value) : M unit :=
  update (fun s => mkStore (messages s) (question s) (loading s) (imageFile s)
                           (imagePreviewUrl s) v (fileInput s))
         (EvSetCalendarEvents v).

(** [if (fileInputRef.current) fileInputRef.current.value = '']. *)
Definition clearFileInput : M unit :=
  fun s =>
    match fileInput s with
    | Some _ =>
        (Ok tt,
         mkStore (messages s) (question s) (loading s) (imageFile s)
                 (imagePreviewUrl s) (calendarEvents s) (Some ""),
         [EvClearFileInput])
    | None => (Ok tt, s, [])
    end.

(** [await fetch(...)]: the request goes out, then the promise settles. *)
Definition fetch (r : request) (o : fetch_outcome) : M response :=
  (emit (EvFetch r) ;;
   emit (EvSettled r) ;;
   match o with
   | Rejected => throw NetworkError
   | Resolved resp => ret resp
   end)%prog.

(** [await resp.json()]. *)
Definition json (resp : response) : M value :=
  match body resp with
  | Some v => ret v
  | None => throw SyntaxError
  end.

(** ** [fetchEvents], lines 71-83 *)

Definition calendar_request : request := CalendarRequest (CAL_API_URL ++ "?limit=10").

Definition fetchEvents (w : world) : M unit :=
  try_catch
    (resp <- fetch calendar_request (cal_outcome w) ;;
     if negb (ok resp) then throw (HttpError (status resp))
     else
       data <- json resp ;;
       events <- lift (get_prop data "events") ;;
       setCalendarEvents (if truthy events then events else VArr []))%prog
    (fun err =>
       emit (EvConsoleError err) ;;
       setCalendarEvents (VArr []))%prog.

(** ** [handleSubmit], lines 140-249 *)

(** Lines 180-182. *)
Definition parse_answer (data : value) : res value :=
  (answer <- get_prop data "answer" ;;
   if nullish answer then
     result <- get_prop data "result" ;;
     Ok (coalesce result (VStr placeholder_text))
   else Ok answer)%result.

Definition parse_intent (data : value) : res value :=
  (intent <- get_prop data "intent" ;;
   Ok (coalesce intent (VStr "rag")))%result.

(** Line 185. *)
Definition parse_pages (data : value) : res (list value) :=
  (pages <- get_prop data "pages" ;;
   Ok match pages with
      | VArr items => items
      | _ => []
      end)%result.

(** Line 192. *)
Definition page_number (firstPage : value) : res value :=
  (page <- get_prop firstPage "page" ;;
   if nullish page then get_prop firstPage "page_number" else Ok page)%result.

(** Line 199: the aliases are tried in order, the first one that is neither
    [null] nor [undefined] wins. *)
Definition page_image_url (firstPage : value) : res value :=
  (a <- get_prop firstPage "image_url" ;;
   if nullish a then
     b <- get_prop firstPage "page_image" ;;
     if nullish b then
       c <- get_prop firstPage "pageImage" ;;
       Ok (coalesce c VNull)
     else Ok b
   else Ok a)%result.

(** Lines 203-205. *)
Definition decorate (answerText pageNum : value) : res value :=
  if truthy pageNum then
    (marked <- includes answerText citation_marker ;;
     if negb marked then
       p <- to_string pageNum ;;
       add_string answerText (citation_line p)
     else Ok answerText)%result
  else Ok answerText.

(** Lines 208-215. *)
Definition resolve_source_image (pageImageBase64 pageImageUrl pageImagePath : value)
  : value :=
  if truthy pageImageBase64 then pageImageBase64
  else if truthy pageImageUrl then pageImageUrl
  else if truthy pageImagePath then pageImagePath
  else VNull.

(** Lines 187-216: the decorated answer and the source image. *)
Definition cite (isReminder : bool) (answerText : value) (pages : list value)
  : res (value * value) :=
  match isReminder, pages with
  | false, firstPage :: _ =>
      (pageNum <- page_number firstPage ;;
       b64 <- get_prop firstPage "image_base64" ;;
       let pageImageBase64 := coalesce b64 VNull in
       pageImageUrl <- page_image_url firstPage ;;
       path <- get_prop firstPage "image_path" ;;
       let pageImagePath := coalesce path VNull in
       decoratedAnswer <- decorate answerText pageNum ;;
       Ok (decoratedAnswer,
           resolve_source_image pageImageBase64 pageImageUrl pageImagePath))%result
  | _, _ => Ok (answerText, VNull)
  end.

(** Lines 180-225: the agent message built from a parsed body, and whether
    the reply is a reminder. *)
Definition agent_reply (now : number) (data : value) : res (message * bool) :=
  (answerText <- parse_answer data ;;
   intent <- parse_intent data ;;
   let isReminder := strict_eq_string intent "reminder" in
   pages <- parse_pages data ;;
   dc <- cite isReminder answerText pages ;;
   Ok ({| id := "agent-" ++ number_to_string now;
          msg_role := Agent;
          name := "Mindual";
          content := fst dc;
          imageUrl := VUndefined;
          variant := if isReminder then VStr "reminder" else VUndefined;
          sourceImage := snd dc |},
       isReminder))%result.

(** Lines 234-240. *)
Definition apology_message (now : number) : message :=
  {| id := "agent-" ++ number_to_string now;
     msg_role := Agent;
     name := "Mindual";
     content := VStr apology_text;
     imageUrl := VUndefined;
     variant := VUndefined;
     sourceImage := VUndefined |}.

(** Lines 147-153.  [trimmed || (...)]: an empty string is falsy. *)
Definition user_message (now : number) (trimmed : string) (imageFile : option file)
    (imagePreviewUrl : option string) : message :=
  {| id := "user-" ++ number_to_string now;
     msg_role := User;
     name := "나";
     content :=
       VStr (if negb (String.eqb trimmed "") then trimmed
             else match imageFile with
                  | Some f => "(이미지 전송: " ++ file_name f ++ ")"
                  | None => "(이미지 전송)"
                  end);
     imageUrl :=
       match imageFile, imagePreviewUrl with
       | Some _, Some u => VStr u
       | _, _ => VNull
       end;
     variant := VUndefined;
     sourceImage := VUndefined |}.

(** The guard of line 144. *)
Definition rejects (s : store) : bool :=
  (String.eqb (trim (question s)) "" &&
   match imageFile s with Some _ => false | None => true end)
  || loading s.

(** The handler created by a render closes over that render's state values,
    the snapshot [snap]; the setters act on the current store. *)
Definition handleSubmit_closure (w : world) (snap : store) : M unit :=
  (emit EvPreventDefault ;;
   let trimmed := trim (question snap) in
   if rejects snap then ret tt
   else
     let userMessage :=
       user_message (time_submit w) trimmed (imageFile snap) (imagePreviewUrl snap) in
     setMessages_append userMessage ;;
     setQuestion "" ;;
     setLoading true ;;
     setImagePreviewUrl None ;;
     try_finally
       (try_catch
          (resp <- fetch (AskRequest trimmed "5" (imageFile snap)) (ask_outcome w) ;;
           if negb (ok resp) then throw (HttpError (status resp))
           else
             data <- json resp ;;
             reply <- lift (agent_reply (time_reply w) data) ;;
             setMessages_append (fst reply) ;;
             if snd reply then fetchEvents w else ret tt)
          (fun error =>
             emit (EvConsoleError error) ;;
             setMessages_append (apology_message (time_reply w))))
       (setLoading false ;;
        setImageFile None ;;
        clearFileInput))%prog.

(** A submit in the store the handler was rendered from. *)
Definition handleSubmit (w : world) : M unit :=
  fun s => handleSubmit_closure w s s.

(** ** Rendering, lines 277-348 *)

(** The [src] of the source-image element of a message row, lines 315-331:
    [None] when the row shows no source image. *)
Definition source_image_src (m : message) : res (option value) :=
  if role_eqb (msg_role m) Agent && truthy (sourceImage m) then
    (isData <- startsWith (sourceImage m) "data:" ;;
     isHttp <- (if isData then Ok true else startsWith (sourceImage m) "http") ;;
     if isHttp then Ok (Some (sourceImage m))
     else
       slash <- startsWith (sourceImage m) "/" ;;
       src <- to_string (sourceImage m) ;;
       Ok (Some (VStr (BACKEND_BASE_URL ++ (if slash then "" else "/") ++ src))))%result
  else Ok None.

(** The rows with class [chat-row] inside the chat window. *)
Inductive row :=
| MessageRow (m : message)
| ThinkingRow.

Definition chat_rows (s : store) : list row :=
  (map MessageRow (messages s) ++ (if loading s then [ThinkingRow] else []))%list.

(** ** Reading runs *)

Definition store_of {A} (r : res A * store * list event) : store := snd (fst r).
Definition trace_of {A} (r : res A * store * list event) : list event := snd r.

(** A request failed: the promise rejected, the status is not 2xx, or the
    body is not JSON. *)
Definition fetch_failed (o : fetch_outcome) : bool :=
  match o with
  | Rejected => true
  | Resolved r =>
      negb (ok r) || match body r with Some _ => false | None => true end
  end.

(** The user message of an accepted submit. *)
Definition submitted (w : world) (s : store) : message :=
  user_message (time_submit w) (trim (question s)) (imageFile s) (imagePreviewUrl s).

(** The store an accepted submit settles in: the messages it appended, the
    input cleared, no submission in flight, no attachment. *)
Definition settled (s : store) (msgs : list message) (events : value) : store :=
  mkStore (messages s ++ msgs)%list "" false None None events
          (option_map (fun _ => "") (fileInput s)).

(** The store with its event list replaced. *)
Definition with_events (s : store) (events : value) : store :=
  mkStore (messages s) (question s) (loading s) (imageFile s)
          (imagePreviewUrl s) events (fileInput s).

(** The steps of an accepted submit up to the settled request, and those of
    its [finally] block. *)
Definition ask_request (s : store) : request :=
  AskRequest (trim (question s)) "5" (imageFile s).

Definition submit_steps (w : world) (s : store) : list event :=
  [EvPreventDefault; EvAppendMessage (submitted w s); EvSetQuestion "";
   EvSetLoading true; EvSetImagePreviewUrl None;
   EvFetch (ask_request s); EvSettled (ask_request s)].

Definition finally_steps (s : store) : list event :=
  ([EvSetLoading false; EvSetImageFile None]
     ++ match fileInput s with Some _ => [EvClearFileInput] | None => [] end)%list.

(** The store after one observable step. *)
Definition step (s : store) (e : event) : store :=
  match e with
  | EvAppendMessage m =>
      mkStore (messages s ++ [m])%list (question s) (loading s) (imageFile s)
              (imagePreviewUrl s) (calendarEvents s) (fileInput s)
  | EvSetQuestion q =>
      mkStore (messages s) q (loading s) (imageFile s)
              (imagePreviewUrl s) (calendarEvents s) (fileInput s)
  | EvSetLoading b =>
      mkStore (messages s) (question s) b (imageFile s)
              (imagePreviewUrl s) (calendarEvents s) (fileInput s)
  | EvSetImageFile f =>
      mkStore (messages s) (question s) (loading s) f
              (imagePreviewUrl s) (calendarEvents s) (fileInput s)
  | EvSetImagePreviewUrl u =>
      mkStore (messages s) (question s) (loading s) (imageFile s)
              u (calendarEvents s) (fileInput s)
  | EvSetCalendarEvents v =>
      mkStore (messages s) (question s) (loading s) (imageFile s)
              (imagePreviewUrl s) v (fileInput s)
  | EvClearFileInput =>
      mkStore (messages s) (question s) (loading s) (imageFile s)
              (imagePreviewUrl s) (calendarEvents s) (Some "")
  | EvPreventDefault | EvFetch _ | EvSettled _ | EvConsoleError _ => s
  end.

(** The store after a whole trace. *)
Definition replay (tr : list event) (s : store) : store := fold_left step tr s.

(** The messages a trace appends, in order. *)
Fixpoint appended (tr : list event) : list message :=
  match tr with
  | [] => []
  | EvAppendMessage m :: rest => m :: appended rest
  | _ :: rest => appended rest
  end.

(** Steps that write the loading flag. *)
Definition sets_loading (e : event) : bool :=
  match e with
  | EvSetLoading _ => true
  | _ => false
  end.

(** The store is never written other than through the steps of the trace. *)
Definition traced {A} (m : M A) : Prop :=
  forall s, store_of (m s) = replay (trace_of (m s)) s.

(** ** Statements compared with the code *)

(** The first candidate that counts as present, [null] when none does. *)
Definition first_present (present : value -> bool) (candidates : list value) : value :=
  match find present candidates with
  | Some v => v
  | None => VNull
  end.

Definition non_nullish (v : value) : bool := negb (nullish v).

(** "The citation line is appended if and only if the answer does not
    already contain the marker", for a reply with a string answer, an intent
    other than "reminder" and a first cited page. *)
Definition cites_unless_marked (w : world) (s : store) : Prop :=
  forall r data a intent firstPage rest pageNum p,
    rejects s = false ->
    ask_outcome w = Resolved r -> ok r = true -> body r = Some data ->
    parse_answer data = Ok (VStr a) ->
    parse_intent data = Ok intent -> strict_eq_string intent "reminder" = false ->
    parse_pages data = Ok (firstPage :: rest) ->
    page_number firstPage = Ok pageNum -> to_string pageNum = Ok p ->
    exists agent events tr,
      handleSubmit w s = (Ok tt, settled s [submitted w s; agent] events, tr)
      /\ content agent =
           VStr (if string_includes a citation_marker then a else a ++ citation_line p).

(** "The embedded image if present, otherwise the URL field (first alias
    present) if present, otherwise the path if present, otherwise none", for
    one notion of presence. *)
Definition resolves_first_present (present : value -> bool) (firstPage : value) : Prop :=
  forall answerText rest dc,
    cite false answerText (firstPage :: rest) = Ok dc ->
    snd dc =
      first_present present
        [field firstPage "image_base64";
         first_present present
           [field firstPage "image_url"; field firstPage "page_image";
            field firstPage "pageImage"];
         field firstPage "image_path"].

(** "For every successful response payload, the parsed answer text equals
    the payload's answer field, falling back to its result field, falling
    back to the placeholder; the intent defaults to "rag" when absent; and the
    appended agent message has variant "reminder" if and only if the parsed
    intent equals "reminder"". *)
Definition parses_every_payload (w : world) (s : store) : Prop :=
  forall r data,
    rejects s = false ->
    ask_outcome w = Resolved r -> ok r = true -> body r = Some data ->
    parse_answer data
      = Ok (coalesce (field data "answer")
              (coalesce (field data "result") (VStr placeholder_text)))
    /\ parse_intent data = Ok (coalesce (field data "intent") (VStr "rag"))
    /\ exists agent events tr,
         handleSubmit w s = (Ok tt, settled s [submitted w s; agent] events, tr)
         /\ msg_role agent = Agent
         /\ (variant agent = VStr "reminder"
             <-> parse_intent data = Ok (VStr "reminder")).


(** The [src] the render computes for a string [v], lines 319-326. *)
Definition rendered_src (v : string) : string :=
  if String.prefix "data:" v || String.prefix "http" v then v
  else BACKEND_BASE_URL ++ (if String.prefix "/" v then "" else "/") ++ v.

End Model.

(** ** A concrete host, for running the model *)

Definition is_ascii_space (c : ascii) : bool :=
  let n := nat_of_ascii c in
  ((9 <=? n) && (n <=? 13))%nat || (n =? 32)%nat.

Fixpoint trim_start (s : string) : string :=
  match s with
  | String c s' => if is_ascii_space c then trim_start s' else s
  | EmptyString => EmptyString
  end.

Fixpoint string_rev (s : string) : string :=
  match s with
  | EmptyString => EmptyString
  | String c s' => string_rev s' ++ String c EmptyString
  end.

(** [trim] on strings whose only white space is ASCII. *)
Definition trim_ascii (s : string) : string :=
  string_rev (trim_start (string_rev (trim_start s))).

(** Integral numbers. *)
Definition ZHost : Host :=
  {| number := Z;
     number_truthy := fun n => negb (n =? 0);
     number_to_string := string_of_Z;
     trim := trim_ascii |}.

(** Numbers of [ZHost] as values. *)
Definition znum (z : Z) : @value ZHost := @VNum ZHost z.

(** ** Sample runs *)

Definition sample_store : @store ZHost :=
  mkStore [] "  필터는 언제 교체하나요? " false None None (VArr []) (Some "C:\fakepath\a.png").

Definition blank_store : @store ZHost :=
  mkStore [] "   " false None None (VArr []) None.

Definition reply_with (data : @value ZHost) : @fetch_outcome ZHost :=
  Resolved (@mkResponse ZHost true 200 (Some data)).

Definition server_error : @fetch_outcome ZHost :=
  Resolved (@mkResponse ZHost false 500 None).

Definition sample_world (ask cal : @fetch_outcome ZHost) : @world ZHost :=
  @mkWorld ZHost ask cal 1730505600000 1730505601500.

(** The cited page of the spec's examples: page 7 with all three image
    fields. *)
Definition page7 : @value ZHost :=
  VObj [("page", znum 7);
        ("image_base64", VStr "data:image/png;base64,iVBORw0KGgo=");
        ("image_url", VStr "https://x/y.png");
        ("image_path", VStr "/local/p.png")].

Definition body_cited : @value ZHost :=
  VObj [("answer", VStr "필터는 6개월마다 교체하세요.");
        ("intent", VStr "rag");
        ("pages", VArr [page7])].

(** A first cited page whose page number is 0. *)
Definition page0 : @value ZHost :=
  VObj [("page", znum 0); ("image_url", VStr "/manual_images/1/page_0.png")].

Definition body_page0 : @value ZHost :=
  VObj [("answer", VStr "필터는 6개월마다 교체하세요."); ("pages", VArr [page0])].

(** A first cited page whose [image_url] is empty while [page_image] is set. *)
Definition page_aliased : @value ZHost :=
  VObj [("page", znum 3);
        ("image_url", VStr "");
        ("page_image", VStr "/manual_images/1/page_3.png")].

Definition body_reminder : @value ZHost :=
  VObj [("answer", VStr "내일 오전 9시에 알림을 등록했어요."); ("intent", VStr "reminder")].


Definition sample_event : @value ZHost :=
  VObj [("id", VStr "e1"); ("date", VStr "2026-11-03"); ("time", VStr "09:00");
        ("title", VStr "필터 교체"); ("location", VStr "거실")].

Definition body_events : @value ZHost := VObj [("events", VArr [sample_event])].

(** ** The other handlers and the render *)

(** [s.split('\n')]: the pieces between line feeds, at least one. *)
Fixpoint split_lines (s : string) : list string :=
  match s with
  | EmptyString => [EmptyString]
  | String c s' =>
      if Ascii.eqb c (ascii_of_nat 10) then EmptyString :: split_lines s'
      else match split_lines s' with
           | l :: ls => String c l :: ls
           | [] => [String c EmptyString]
           end
  end.

(** [lines.join('\n')]. *)
Fixpoint join_lines (lines : list string) : string :=
  match lines with
  | [] => EmptyString
  | [l] => l
  | l :: rest => l ++ nl ++ join_lines rest
  end.

(** The text of the citation line, without the two line feeds before it. *)
Definition citation_text (p : string) : string :=
  "(참고: 매뉴얼 p." ++ p ++ " 기반 답변)".

(** The day cells of month index [m] of year [y], when the reference date is
    day [td] of it. *)
Definition month_cells (y m td : Z) : list (option Calendar.cell) :=
  map (fun day => Some (Calendar.mkCell (date_key y m day) day (day =? td)))
      (Zrange 1 (Z.to_nat (JsDate.days_in_month y m))).

Definition is_today_cell (c : option Calendar.cell) : bool :=
  match c with
  | Some cell => Calendar.isToday cell
  | None => false
  end.

Definition role_name (r : role) : string :=
  match r with
  | User => "user"
  | Agent => "agent"
  end.

Declare Scope prog_scope.
Delimit Scope prog_scope with prog.

Section View.

Context {H : Host}.

Notation "x <- m ;; k" := (bind m (fun x => k))
  (at level 61, m at next level, right associativity) : prog_scope.
Notation "m ;; k" := (bind m (fun _ => k))
  (at level 61, right associativity) : prog_scope.

(** [handleFileChange], lines 108-121.  The result is the file whose read
    [reader.readAsDataURL] has started, if any; the read ends later, in
    [reader_onloadend]. *)
Definition handleFileChange (picked : option file) : M (option file) :=
  (setImageFile picked ;;
   match picked with
   | Some f => ret (Some f)
   | None => (setImagePreviewUrl None ;; ret None)
   end)%prog.

(** [reader.onloadend], lines 114-116: [reader.result] is the data URL, or
    [null] when the read failed. *)
Definition reader_onloadend (result : option string) : M unit :=
  setImagePreviewUrl result.

(** [handleRemoveImage], lines 124-130. *)
Definition handleRemoveImage : M unit :=
  (setImageFile None ;;
   setImagePreviewUrl None ;;
   clearFileInput)%prog.

(** [handleKeyDown], lines 133-138, for the handler of one render. *)
Definition handleKeyDown_closure (w : world) (snap : store) (key : string)
    (shiftKey : bool) : M unit :=
  if String.eqb key "Enter" && negb shiftKey
  then (emit EvPreventDefault ;; handleSubmit_closure w snap)%prog
  else ret tt.

Definition handleKeyDown (w : world) (key : string) (shiftKey : bool) : M unit :=
  fun s => handleKeyDown_closure w s key shiftKey s.

(** *** The form, lines 357-417 *)

(** [disabled] of the submit button, line 413. *)
Definition submit_disabled (s : store) : bool :=
  loading s ||
  (String.eqb (trim (question s)) "" &&
   match imageFile s with Some _ => false | None => true end).

(** [disabled] of the attach button, line 402. *)
Definition attach_disabled (s : store) : bool :=
  loading s || match imageFile s with Some _ => true | None => false end.

(** The preview block is rendered, line 371: [imagePreviewUrl && ...]. *)
Definition preview_shown (s : store) : bool :=
  match imagePreviewUrl s with
  | Some u => negb (String.eqb u "")
  | None => false
  end.

(** The header tag, line 272. *)
Definition header_tag (s : store) : string :=
  if loading s then "Thinking..." else "Live".

(** The hint of lines 350-354. *)
Definition empty_hint_shown (s : store) : bool :=
  Nat.eqb (List.length (messages s)) 0 && negb (loading s).

(** *** A message row, lines 277-334 *)

Inductive row_body :=
| ImageBody (text : value) (src : value)   (* text and attached image, lines 295-302 *)
| LinesBody (lines : list string).          (* one span per line, lines 304-311 *)

Record row_view := mkRowView {
  row_class : string;
  row_name : string;
  row_badge : bool;             (* the knowledge-base badge, lines 288-290 *)
  row_content : row_body;
  row_source : option value     (* [src] of the source image, if shown *)
}.

(** [message.content.split('\n')]: a string method only. *)
Definition content_lines (v : value) : res (list string) :=
  match v with
  | VStr s => Ok (split_lines s)
  | _ => Throw TypeError
  end.

(** One message row, lines 277-334: the element tree that the callback of
    [messages.map] builds.  [Throw] is an exception raised while building
    it; what React later does with the children it is handed is outside
    this function. *)
Definition render_row (m : message) : res row_view :=
  (cls <- to_string (coalesce (variant m) (VStr "")) ;;
   body <- (if role_eqb (msg_role m) User && truthy (imageUrl m)
            then Ok (ImageBody (content m) (imageUrl m))
            else (lines <- content_lines (content m) ;; Ok (LinesBody lines))) ;;
   src <- source_image_src m ;;
   Ok {| row_class := "chat-row " ++ role_name (msg_role m) ++ " " ++ cls;
         row_name := name m;
         row_badge := role_eqb (msg_role m) Agent
                      && negb (strict_eq_string (variant m) "reminder");
         row_content := body;
         row_source := src |})%result.

(** [messages.map(...)], in order; the first row that throws aborts the
    render. *)
Fixpoint render_rows (ms : list message) : res (list row_view) :=
  match ms with
  | [] => Ok []
  | m :: rest =>
      (r <- render_row m ;; rs <- render_rows rest ;; Ok (r :: rs))%result
  end.

(** *** The calendar grid, lines 472-494 *)

Inductive cell_view :=
| EmptyCell (index : nat)                   (* key [empty-${index}] *)
| DayCell (key : string) (label : Z) (today : bool) (has_event : bool).

(** [calendarEvents.filter((event) => event.date === key)] on an array. *)
Fixpoint filter_events (key : string) (items : list value) : res (list value) :=
  match items with
  | [] => Ok []
  | ev :: rest =>
      (d <- get_prop ev "date" ;;
       kept <- filter_events key rest ;;
       Ok (if strict_eq_string d key then ev :: kept else kept))%result
  end.

(** Only arrays have a callable [filter]. *)
Definition daily_events (events : value) (key : string) : res (list value) :=
  match events with
  | VArr items => filter_events key items
  | _ => Throw TypeError
  end.

Definition render_cell (events : value) (index : nat) (c : option Calendar.cell)
  : res cell_view :=
  match c with
  | None => Ok (EmptyCell index)
  | Some cell =>
      (dailyEvents <- daily_events events (Calendar.key cell) ;;
       Ok (DayCell (Calendar.key cell) (Calendar.label cell) (Calendar.isToday cell)
                   (negb (Nat.eqb (List.length dailyEvents) 0))))%result
  end.

(** [calendar.cells.map((cell, index) => ...)], from index [index] on. *)
Fixpoint render_cells (events : value) (index : nat) (cs : list (option Calendar.cell))
  : res (list cell_view) :=
  match cs with
  | [] => Ok []
  | c :: rest =>
      (v <- render_cell events index c ;;
       vs <- render_cells events (S index) rest ;;
       Ok (v :: vs))%result
  end.

(** An event is dated [key]. *)
Definition dated (key : string) (ev : value) : bool :=
  strict_eq_string (field ev "date") key.

(** The keys of the day cells of a grid, in grid order. *)
Definition cell_keys (cs : list (option Calendar.cell)) : list string :=
  flat_map (fun c => match c with
                     | Some cell => [Calendar.key cell]
                     | None => []
                     end) cs.

(** The day cells whose filter of line 479 keeps the event [ev]. *)
Definition marked_by (ev : value) (cs : list (option Calendar.cell))
  : list Calendar.cell :=
  flat_map (fun c => match c with
                     | Some cell => if dated (Calendar.key cell) ev then [cell] else []
                     | None => []
                     end) cs.

Definition render_grid (cal : Calendar.calendar) (s : store) : res (list cell_view) :=
  render_cells (calendarEvents s) 0 (Calendar.cells cal).

(** *** Reading a run *)

(** The error the [catch] block of a failed request receives. *)
Definition ask_error (o : fetch_outcome) : exn :=
  match o with
  | Rejected => NetworkError
  | Resolved r => if ok r then SyntaxError else HttpError (status r)
  end.

(** A successful response: 2xx with a JSON body. *)
Definition replied (w : world) (data : value) : Prop :=
  exists r, ask_outcome w = Resolved r /\ ok r = true /\ body r = Some data.

(** The read a file selection starts, and the outcome of a run. *)
Definition outcome_started (r : res (option file) * store * list event) : option file :=
  match fst (fst r) with
  | Ok started => started
  | Throw _ => None
  end.

Definition outcome_of_run {A} (r : res A * store * list event) : res A := fst (fst r).

(** The requests a trace issues, in order. *)
Fixpoint fetches (tr : list event) : list request :=
  match tr with
  | [] => []
  | EvFetch r :: rest => r :: fetches rest
  | _ :: rest => fetches rest
  end.

(** The value an event fetch stores for what the calendar endpoint did. *)
Definition fetched_events (o : fetch_outcome) : value :=
  match o with
  | Rejected => VArr []
  | Resolved r =>
      if ok r then
        match body r with
        | Some data =>
            if nullish data then VArr []
            else if truthy (field data "events") then field data "events"
            else VArr []
        | None => VArr []
        end
      else VArr []
  end.

End View.

(** More sample bodies: a cited-page list that starts with [null], and a
    numeric answer. *)
Definition body_null_page : @value ZHost :=
  VObj [("answer", VStr "필터는 6개월마다 교체하세요."); ("pages", VArr [VNull])].

Definition body_numeric : @value ZHost :=
  VObj [("answer", znum 42); ("pages", VArr [page_aliased])].

Definition sample_file : file := mkFile "filter.png" 1.

Definition sample_data_url : string := "data:image/png;base64,iVBORw0KGgo=".

(** * The calendar of the host *)

Lemma In_Zrange (lo : Z) (n : nat) (x : Z) :
  lo <= x < lo + Z.of_nat n -> In x (Zrange lo n).
Proof.
  revert lo. induction n as [| n IH]; intros lo Hx; [lia |].
  cbn [Zrange]. destruct (Z.eq_dec lo x) as [-> | Hne]; [now left | right].
  apply IH. lia.
Qed.

Lemma all_in_spec (lo : Z) (n : nat) (f : Z -> bool) (x : Z) :
  all_in lo n f = true -> lo <= x < lo + Z.of_nat n -> f x = true.
Proof.
  unfold all_in. rewrite forallb_forall. intros Hall Hx.
  apply Hall, In_Zrange, Hx.
Qed.

Lemma Zrange_length (lo : Z) (n : nat) : List.length (Zrange lo n) = n.
Proof.
  revert lo. induction n as [| n IH]; intros lo; [reflexivity |].
  cbn. now rewrite IH.
Qed.

Lemma cycle_months_ok :
  all_in 0 400 (fun y => all_in 0 12 (fun m => month_check y m && month_end_check y m))
  = true.
Proof. vm_compute. reflexivity. Qed.

Lemma pads_two_digits_ok :
  all_in 0 100 (fun n => String.eqb (padStart (string_of_Z n) 2 "0") (two_digits n))
  = true.
Proof. vm_compute. reflexivity. Qed.

(** The numerator of [year_of_era] never decreases along an era. *)
Lemma year_numerator_mono (a b : Z) :
  0 <= a -> a <= b -> b < 146097 ->
  a - a / 1460 + a / 36524 - a / 146096 <= b - b / 1460 + b / 36524 - b / 146096.
Proof.
  intros Ha Hab Hb. Z.div_mod_to_equations. lia.
Qed.

Lemma days_from_civil_day (y m d : Z) :
  JsDate.days_from_civil y m d = JsDate.days_from_civil y m 1 + d - 1.
Proof. unfold JsDate.days_from_civil. cbv zeta. lia. Qed.

Lemma div_sandwich (a b c q : Z) :
  0 < c -> a <= b -> a / c = q -> forall x, a <= x <= b -> b / c = q -> x / c = q.
Proof.
  intros Hc Hab Ha x Hx Hb.
  pose proof (Z.div_le_mono a x c Hc ltac:(lia)).
  pose proof (Z.div_le_mono x b c Hc ltac:(lia)).
  lia.
Qed.

(** Within a checked month every day reads back as itself. *)
Lemma month_check_roundtrip (y m d : Z) :
  month_check y m = true ->
  1 <= d <= JsDate.days_in_month y m ->
  JsDate.civil_from_days (JsDate.days_from_civil y m d) = (y, m, d).
Proof.
  unfold month_check. cbv zeta. intros Hchk Hd.
  apply andb_prop in Hchk. destruct Hchk as [Hchk Hy].
  apply andb_prop in Hchk. destruct Hchk as [Hchk Hm].
  apply andb_prop in Hchk. destruct Hchk as [Hchk Hd1].
  apply andb_prop in Hchk. destruct Hchk as [Hchk Hmp2].
  apply andb_prop in Hchk. destruct Hchk as [Hchk Hyoe2].
  apply andb_prop in Hchk. destruct Hchk as [Hchk Hera2].
  apply andb_prop in Hchk. destruct Hchk as [Hn1 Hn31].
  apply Z.eqb_eq in Hy, Hm, Hd1, Hmp2, Hyoe2, Hera2.
  apply Z.leb_le in Hn1, Hn31.
  rewrite (days_from_civil_day y m d).
  set (n := JsDate.days_in_month y m) in *.
  set (z1 := JsDate.days_from_civil y m 1 + 719468) in *.
  set (era := z1 / 146097) in *.
  set (doe1 := z1 mod 146097) in *.
  set (yoe := JsDate.year_of_era doe1) in *.
  set (doy1 := JsDate.day_of_year yoe doe1) in *.
  set (mp := JsDate.month_of_doy doy1) in *.
  unfold JsDate.civil_from_days. cbv zeta.
  replace (JsDate.days_from_civil y m 1 + d - 1 + 719468) with (z1 + (d - 1))
    by (unfold z1; lia).
  assert (Hera : (z1 + (d - 1)) / 146097 = era).
  { apply (div_sandwich z1 (z1 + n - 1) 146097 era); try lia; reflexivity. }
  assert (Hdoe1 : 0 <= doe1 < 146097) by (apply Z.mod_pos_bound; lia).
  assert (Hz1 : z1 = 146097 * era + doe1) by (apply Z.div_mod; lia).
  assert (Hdoe : (z1 + (d - 1)) mod 146097 = doe1 + (d - 1)).
  { rewrite Z.mod_eq by lia. rewrite Hera. lia. }
  assert (Hlast : doe1 + n - 1 < 146097).
  { assert (Hmod : (z1 + n - 1) mod 146097 = doe1 + n - 1).
    { rewrite Z.mod_eq by lia.
      rewrite Hera2. lia. }
    pose proof (Z.mod_pos_bound (z1 + n - 1) 146097 ltac:(lia)). lia. }
  rewrite Hera, Hdoe.
  assert (Hyoe : JsDate.year_of_era (doe1 + (d - 1)) = yoe).
  { unfold JsDate.year_of_era in *.
    apply (div_sandwich
             (doe1 - doe1 / 1460 + doe1 / 36524 - doe1 / 146096)
             ((doe1 + n - 1) - (doe1 + n - 1) / 1460 + (doe1 + n - 1) / 36524
                - (doe1 + n - 1) / 146096) 365 yoe);
      first [ reflexivity | assumption | apply year_numerator_mono; lia
            | split; apply year_numerator_mono; lia | lia ]. }
  rewrite Hyoe.
  assert (Hdoy : JsDate.day_of_year yoe (doe1 + (d - 1)) = doy1 + (d - 1)).
  { unfold doy1, JsDate.day_of_year. lia. }
  rewrite Hdoy.
  assert (Hmp : JsDate.month_of_doy (doy1 + (d - 1)) = mp).
  { unfold JsDate.month_of_doy in *.
    apply (div_sandwich (5 * doy1 + 2) (5 * (doy1 + n - 1) + 2) 153 mp);
      first [ reflexivity | assumption | lia ]. }
  rewrite Hmp, Hm, Hy.
  repeat f_equal. lia.
Qed.

Lemma is_leap_shift (y k : Z) : JsDate.is_leap (y + 400 * k) = JsDate.is_leap y.
Proof.
  unfold JsDate.is_leap.
  replace (y + 400 * k) with (y + (100 * k) * 4) at 1 by lia.
  replace (y + 400 * k) with (y + (4 * k) * 100) at 1 by lia.
  replace (y + 400 * k) with (y + k * 400) by lia.
  now rewrite !Z.mod_add by lia.
Qed.

Lemma days_in_month_shift (y m k : Z) :
  JsDate.days_in_month (y + 400 * k) m = JsDate.days_in_month y m.
Proof. unfold JsDate.days_in_month. now rewrite is_leap_shift. Qed.

Lemma days_from_civil_shift (y m d k : Z) :
  JsDate.days_from_civil (y + 400 * k) m d = JsDate.days_from_civil y m d + 146097 * k.
Proof.
  unfold JsDate.days_from_civil. cbv zeta.
  destruct (m <? 2).
  - replace (y + 400 * k - 1) with (y - 1 + k * 400) by lia.
    rewrite Z.div_add, Z.mod_add by lia. lia.
  - replace (y + 400 * k) with (y + k * 400) by lia.
    rewrite Z.div_add, Z.mod_add by lia. lia.
Qed.

Lemma civil_from_days_shift (z k : Z) :
  JsDate.civil_from_days (z + 146097 * k) =
    (fst (fst (JsDate.civil_from_days z)) + 400 * k,
     snd (fst (JsDate.civil_from_days z)),
     snd (JsDate.civil_from_days z)).
Proof.
  unfold JsDate.civil_from_days. cbv zeta.
  replace (z + 146097 * k + 719468) with (z + 719468 + k * 146097) by lia.
  rewrite Z.div_add, Z.mod_add by lia. cbn [fst snd].
  f_equal. f_equal.
  destruct ((if JsDate.month_of_doy _ <? 10 then _ else _) <? 2); lia.
Qed.

Lemma cycle_month (y m : Z) :
  0 <= m < 12 ->
  month_check (y mod 400) m = true /\ month_end_check (y mod 400) m = true.
Proof.
  intros Hm. pose proof (Z.mod_pos_bound y 400 ltac:(lia)) as Hy.
  assert (Hy' : 0 <= y mod 400 < 0 + Z.of_nat 400)
    by (change (Z.of_nat 400) with 400; lia).
  assert (Hm' : 0 <= m < 0 + Z.of_nat 12)
    by (change (Z.of_nat 12) with 12; lia).
  pose proof (all_in_spec 0 400 _ (y mod 400) cycle_months_ok Hy') as Hrow.
  pose proof (all_in_spec 0 12 _ m Hrow Hm') as Hcell.
  apply andb_prop in Hcell. exact Hcell.
Qed.

Lemma year_cycle (y : Z) : y = y mod 400 + 400 * (y / 400).
Proof. pose proof (Z.div_mod y 400 ltac:(lia)). lia. Qed.

(** Every day of every month reads back as itself. *)
Lemma civil_roundtrip (y m d : Z) :
  0 <= m < 12 -> 1 <= d <= JsDate.days_in_month y m ->
  JsDate.civil_from_days (JsDate.days_from_civil y m d) = (y, m, d).
Proof.
  intros Hm Hd. destruct (cycle_month y m Hm) as [Hchk _].
  rewrite (year_cycle y) in Hd |- *.
  rewrite days_in_month_shift in Hd.
  rewrite days_from_civil_shift, civil_from_days_shift.
  rewrite (month_check_roundtrip _ _ _ Hchk Hd). reflexivity.
Qed.

(** Day 0 of the next month is the last day of this one. *)
Lemma month_end (y m : Z) :
  0 <= m < 12 ->
  JsDate.days_from_civil (y + (m + 1) / 12) ((m + 1) mod 12) 1 =
    JsDate.days_from_civil y m 1 + JsDate.days_in_month y m.
Proof.
  intros Hm. destruct (cycle_month y m Hm) as [_ Hchk].
  unfold month_end_check in Hchk. apply Z.eqb_eq in Hchk.
  rewrite (year_cycle y) at 1 2 3.
  replace (y mod 400 + 400 * (y / 400) + (m + 1) / 12)
    with (y mod 400 + (m + 1) / 12 + 400 * (y / 400)) by lia.
  rewrite !days_from_civil_shift, days_in_month_shift, Hchk. lia.
Qed.

Lemma days_in_month_bounds (y m : Z) : 28 <= JsDate.days_in_month y m <= 31.
Proof.
  unfold JsDate.days_in_month.
  destruct (m =? 1); [destruct (JsDate.is_leap y); lia |].
  destruct ((m =? 3) || (m =? 5) || (m =? 8) || (m =? 10)); lia.
Qed.

(** The constructor, away from the two-digit years it reinterprets. *)
Lemma make_civil (y m d : Z) :
  ~ (0 <= y <= 99) -> 0 <= m < 12 ->
  JsDate.make y m d = JsDate.days_from_civil y m d.
Proof.
  intros Hy Hm. unfold JsDate.make, JsDate.make_day.
  replace ((0 <=? y) && (y <=? 99)) with false
    by (symmetry; apply andb_false_iff; lia).
  rewrite Z.div_small, Z.mod_small, Z.add_0_r by lia.
  rewrite (days_from_civil_day y m d). lia.
Qed.

Lemma make_month_end (y m : Z) :
  ~ (0 <= y <= 99) -> 0 <= m < 12 ->
  JsDate.make y (m + 1) 0 = JsDate.days_from_civil y m (JsDate.days_in_month y m).
Proof.
  intros Hy Hm. unfold JsDate.make, JsDate.make_day.
  replace ((0 <=? y) && (y <=? 99)) with false
    by (symmetry; apply andb_false_iff; lia).
  rewrite (month_end y m Hm), (days_from_civil_day y m (JsDate.days_in_month y m)). lia.
Qed.

(** * The calendar grid *)

Lemma week_deficit_lt (n : nat) : (Calendar.week_deficit n < 7)%nat.
Proof. unfold Calendar.week_deficit. apply Nat.mod_upper_bound. lia. Qed.

Lemma week_deficit_full (n : nat) :
  Calendar.week_full n = true -> Calendar.week_deficit n = 0%nat.
Proof.
  unfold Calendar.week_full, Calendar.week_deficit. intros Hn.
  apply Nat.eqb_eq in Hn. rewrite Hn. reflexivity.
Qed.

Lemma week_deficit_succ (n : nat) :
  Calendar.week_full n = false ->
  Calendar.week_deficit n = S (Calendar.week_deficit (n + 1)).
Proof.
  unfold Calendar.week_full, Calendar.week_deficit. intros Hn. apply Nat.eqb_neq in Hn.
  pose proof (Nat.mod_upper_bound n 7 ltac:(lia)) as Hlt.
  rewrite (Nat.Div0.add_mod n 1 7).
  change (1 mod 7)%nat with 1%nat.
  remember (n mod 7)%nat as r.
  assert (Hr : (r = 1 \/ r = 2 \/ r = 3 \/ r = 4 \/ r = 5 \/ r = 6)%nat) by lia.
  destruct Hr as [-> | [-> | [-> | [-> | [-> | ->]]]]]; reflexivity.
Qed.

Lemma week_deficit_fills (n : nat) : ((n + Calendar.week_deficit n) mod 7 = 0)%nat.
Proof.
  unfold Calendar.week_deficit.
  rewrite Nat.Div0.add_mod_idemp_r.
  pose proof (Nat.mod_upper_bound n 7 ltac:(lia)) as Hlt.
  pose proof (Nat.div_mod_eq n 7) as Hn.
  replace (n + (7 - n mod 7))%nat with (7 + 7 * (n / 7))%nat by lia.
  rewrite Nat.mul_comm, Nat.Div0.mod_add. reflexivity.
Qed.

(** The third loop pads with exactly the missing cells. *)
Lemma pad_week_eq (cs : list (option Calendar.cell)) :
  Calendar.pad_week cs =
    (cs ++ repeat None (Calendar.week_deficit (List.length cs)))%list.
Proof.
  funelim (Calendar.pad_week cs).
  - rewrite week_deficit_full by assumption. cbn. now rewrite app_nil_r.
  - match goal with
    | IH : Calendar.pad_week _ = (_ ++ repeat None _)%list |- _ => rewrite IH
    end.
    rewrite length_app. cbn [List.length].
    rewrite (week_deficit_succ (List.length cs)) by assumption.
    rewrite <- app_assoc. reflexivity.
Qed.

Lemma pads_two (n : Z) :
  0 <= n <= 99 -> padStart (string_of_Z n) 2 "0" = two_digits n.
Proof.
  intros Hn. apply String.eqb_eq.
  apply (all_in_spec 0 100 _ n pads_two_digits_ok).
  change (Z.of_nat 100) with 100. lia.
Qed.

Lemma string_append_length (a b : string) :
  String.length (a ++ b) = (String.length a + String.length b)%nat.
Proof. induction a as [| c a IH]; cbn; [reflexivity | now rewrite IH]. Qed.

Lemma formatISODate_civil (y m d : Z) :
  0 <= m < 12 -> 1 <= d <= JsDate.days_in_month y m ->
  Calendar.formatISODate (JsDate.days_from_civil y m d) = date_key y m d.
Proof.
  intros Hm Hd. pose proof (days_in_month_bounds y m).
  unfold Calendar.formatISODate, JsDate.getFullYear, JsDate.getMonth, JsDate.getDate.
  rewrite (civil_roundtrip y m d Hm Hd). cbn [fst snd].
  rewrite !pads_two by lia. reflexivity.
Qed.

Lemma day_cells_eq (y m td start : Z) (n : nat) :
  ~ (0 <= y <= 99) -> 0 <= m < 12 ->
  1 <= start -> start + Z.of_nat n - 1 <= JsDate.days_in_month y m ->
  Calendar.day_cells y m td start n =
    map (fun day => Some (Calendar.mkCell (date_key y m day) day (day =? td)))
        (Zrange start n).
Proof.
  intros Hy Hm. revert start. induction n as [| n IH]; intros start Hs He.
  - reflexivity.
  - cbn [Calendar.day_cells Zrange map].
    rewrite (make_civil y m start Hy Hm), formatISODate_civil by lia.
    rewrite IH by lia. reflexivity.
Qed.

(** The grid of a reference date given by its civil fields. *)
Lemma make_calendar_civil (y m d : Z) :
  ~ (0 <= y <= 99) -> 0 <= m < 12 -> 1 <= d <= JsDate.days_in_month y m ->
  Calendar.cells (Calendar.make_calendar (JsDate.days_from_civil y m d)) =
    Calendar.pad_week
      (repeat None (Z.to_nat (JsDate.getDay (JsDate.days_from_civil y m 1)))
         ++ map (fun day => Some (Calendar.mkCell (date_key y m day) day (day =? d)))
                (Zrange 1 (Z.to_nat (JsDate.days_in_month y m))))%list.
Proof.
  intros Hy Hm Hd. pose proof (days_in_month_bounds y m) as Hn.
  unfold Calendar.make_calendar, Calendar.leading,
    JsDate.getFullYear, JsDate.getMonth, JsDate.getDate.
  cbv zeta. cbn [Calendar.cells].
  rewrite (civil_roundtrip y m d Hm Hd). cbn [fst snd].
  rewrite (make_civil y m 1 Hy Hm), (make_month_end y m Hy Hm).
  rewrite (civil_roundtrip y m (JsDate.days_in_month y m) Hm ltac:(lia)). cbn [fst snd].
  rewrite (day_cells_eq y m d 1 _ Hy Hm) by lia.
  reflexivity.
Qed.

Lemma two_digit_year_leap (y : Z) :
  0 <= y <= 99 -> y = 0 \/ JsDate.is_leap (1900 + y) = JsDate.is_leap y.
Proof.
  intros Hy.
  assert (Hall : all_in 0 100 (fun y =>
            (y =? 0) || Bool.eqb (JsDate.is_leap (1900 + y)) (JsDate.is_leap y)) = true)
    by (vm_compute; reflexivity).
  pose proof (all_in_spec 0 100 _ y Hall) as Hcase. cbv beta in Hcase.
  destruct (orb_prop _ _ (Hcase ltac:(change (Z.of_nat 100) with 100; lia))) as [H0 | Hl].
  - left. now apply Z.eqb_eq.
  - right. now apply Bool.eqb_prop.
Qed.

(** The reference date always is a date of a year the constructor does not
    reinterpret. *)
Lemma today_civil (y m d : Z) :
  0 <= m < 12 -> 1 <= d <= JsDate.days_in_month y m ->
  exists y' m' d',
    ~ (0 <= y' <= 99) /\ 0 <= m' < 12 /\ 1 <= d' <= JsDate.days_in_month y' m'
    /\ Calendar.today (JsDate.days_from_civil y m d) = JsDate.days_from_civil y' m' d'
    /\ (~ (0 <= y <= 99) -> y' = y /\ m' = m /\ d' = d).
Proof.
  intros Hm Hd. unfold Calendar.today, JsDate.getFullYear, JsDate.getMonth, JsDate.getDate.
  rewrite (civil_roundtrip y m d Hm Hd). cbn [fst snd].
  destruct (Z_le_dec 0 y) as [H0 | H0]; [destruct (Z_le_dec y 99) as [H99 | H99] |].
  2, 3: exists y, m, d; repeat split; try lia; try (apply make_civil; lia).
  assert (Hmake : JsDate.make y m d = JsDate.days_from_civil (1900 + y) m d).
  { unfold JsDate.make, JsDate.make_day.
    replace ((0 <=? y) && (y <=? 99)) with true
      by (symmetry; apply andb_true_iff; lia).
    rewrite Z.div_small, Z.mod_small, Z.add_0_r by lia.
    rewrite (days_from_civil_day (1900 + y) m d). lia. }
  rewrite Hmake.
  destruct (two_digit_year_leap y ltac:(lia)) as [-> | Hleap].
  - destruct (Z.eq_dec m 1) as [-> | Hm1].
    + destruct (Z.eq_dec d 29) as [-> | Hd29].
      * exists 1900, 2, 1. change (JsDate.days_in_month 1900 2) with 31.
        repeat split; try lia; try reflexivity.
      * exists 1900, 1, d. change (JsDate.days_in_month 0 1) with 29 in Hd.
        change (JsDate.days_in_month 1900 1) with 28.
        repeat split; try lia.
    + exists 1900, m, d.
      assert (Hdim : JsDate.days_in_month 1900 m = JsDate.days_in_month 0 m).
      { unfold JsDate.days_in_month. destruct (m =? 1) eqn:E; [| reflexivity].
        apply Z.eqb_eq in E. contradiction. }
      rewrite Hdim. repeat split; try lia.
  - exists (1900 + y), m, d.
    assert (Hdim : JsDate.days_in_month (1900 + y) m = JsDate.days_in_month y m).
    { unfold JsDate.days_in_month. now rewrite Hleap. }
    rewrite Hdim. repeat split; try lia.
Qed.

(** C6.  For every reference date (the day the component is mounted on,
    given by its civil fields), the grid of the memoised calendar consists of
    as many empty cells as the weekday index (Sunday = 0) of day 1 of the
    reference date's month, then one cell for each day 1, 2, ... of that
    month up to its length, in order, each with its YYYY-MM-DD key (two-digit
    month and day), its day number and the flag [isToday] set exactly on the
    reference date's own day, then fewer than seven empty cells; the number
    of cells is a multiple of 7. *)
Theorem calendar_grid (y m d : Z) :
  0 <= m < 12 -> 1 <= d <= JsDate.days_in_month y m ->
  let t := Calendar.today (JsDate.days_from_civil y m d) in
  let ty := JsDate.getFullYear t in
  let tm := JsDate.getMonth t in
  let td := JsDate.getDate t in
  let n := JsDate.days_in_month ty tm in
  let grid := Calendar.cells (Calendar.make_calendar t) in
  exists (first : JsDate.t) (lead trail : nat),
    JsDate.getFullYear first = ty /\ JsDate.getMonth first = tm
    /\ JsDate.getDate first = 1
    /\ Z.of_nat lead = JsDate.getDay first
    /\ (lead < 7)%nat /\ (trail < 7)%nat
    /\ grid =
         (repeat None lead
            ++ map (fun day => Some (Calendar.mkCell (date_key ty tm day) day (day =? td)))
                   (Zrange 1 (Z.to_nat n))
            ++ repeat None trail)%list
    /\ (List.length grid mod 7 = 0)%nat
    /\ 0 <= tm < 12 /\ 1 <= td <= n /\ 28 <= n <= 31
    /\ (~ (0 <= y <= 99) -> ty = y /\ tm = m /\ td = d).
Proof.
  intros Hm Hd t ty tm td n grid.
  destruct (today_civil y m d Hm Hd) as (y' & m' & d' & Hy' & Hm' & Hd' & Ht & Hsame).
  assert (Hfields : ty = y' /\ tm = m' /\ td = d').
  { unfold ty, tm, td, t, JsDate.getFullYear, JsDate.getMonth, JsDate.getDate.
    rewrite Ht, (civil_roundtrip y' m' d' Hm' Hd'). repeat split. }
  destruct Hfields as (Hty & Htm & Htd).
  pose proof (days_in_month_bounds y' m') as Hn.
  assert (Hgrid : grid = Calendar.pad_week
      (repeat None (Z.to_nat (JsDate.getDay (JsDate.days_from_civil y' m' 1)))
         ++ map (fun day => Some (Calendar.mkCell (date_key y' m' day) day (day =? d')))
                (Zrange 1 (Z.to_nat (JsDate.days_in_month y' m'))))%list).
  { unfold grid, t. rewrite Ht. now apply make_calendar_civil. }
  rewrite pad_week_eq in Hgrid.
  set (first := JsDate.days_from_civil y' m' 1) in *.
  assert (Hday : 0 <= JsDate.getDay first < 7)
    by (unfold JsDate.getDay; apply Z.mod_pos_bound; lia).
  exists first, (Z.to_nat (JsDate.getDay first)).
  eexists.
  unfold n. rewrite Hty, Htm, Htd.
  assert (Hfirst : JsDate.civil_from_days first = (y', m', 1))
    by (apply civil_roundtrip; lia).
  unfold JsDate.getFullYear, JsDate.getMonth, JsDate.getDate. rewrite Hfirst. cbn [fst snd].
  split; [reflexivity |]. split; [reflexivity |]. split; [reflexivity |].
  split; [lia |]. split; [lia |].
  split; [apply week_deficit_lt |].
  split; [rewrite Hgrid, <- app_assoc; reflexivity |].
  split; [rewrite Hgrid, length_app, repeat_length; apply week_deficit_fills |].
  split; [lia |]. split; [lia |]. split; [lia |].
  intros Hy. destruct (Hsame Hy) as (-> & -> & ->). repeat split.
Qed.
Section PipelineFacts.
Context {H : Host}.

Lemma replay_app (tr1 tr2 : list event) (s : store) :
  replay (tr1 ++ tr2)%list s = replay tr2 (replay tr1 s).
Proof. apply fold_left_app. Qed.

Lemma appended_app (tr1 tr2 : list event) :
  appended (tr1 ++ tr2)%list = (appended tr1 ++ appended tr2)%list.
Proof.
  induction tr1 as [| e tr1 IH]; [reflexivity |].
  destruct e; simpl; rewrite IH; reflexivity.
Qed.

(** Replaying a trace only ever extends the message sequence. *)
Lemma replay_messages (tr : list event) (s : store) :
  messages (replay tr s) = (messages s ++ appended tr)%list.
Proof.
  revert s. induction tr as [| e tr IH]; intros s.
  - simpl. now rewrite app_nil_r.
  - change (replay (e :: tr) s) with (replay tr (step s e)).
    rewrite IH. destruct e; simpl; try reflexivity.
    now rewrite <- app_assoc.
Qed.

Lemma traced_ret {A} (a : A) : traced (ret a).
Proof. intros s. reflexivity. Qed.

Lemma traced_throw {A} (e : exn) : traced (@throw _ A e).
Proof. intros s. reflexivity. Qed.

Lemma traced_lift {A} (r : res A) : traced (lift r).
Proof. intros s. reflexivity. Qed.

Lemma traced_bind {A B} (m : M A) (k : A -> M B) :
  traced m -> (forall a, traced (k a)) -> traced (bind m k).
Proof.
  intros Hm Hk s. specialize (Hm s). unfold bind, store_of, trace_of in *.
  destruct (m s) as [[[a | e] s1] t1]; simpl in *.
  - specialize (Hk a s1). unfold store_of, trace_of in Hk.
    destruct (k a s1) as [[r2 s2] t2]; simpl in *.
    rewrite replay_app. now subst.
  - assumption.
Qed.

Lemma traced_try_catch {A} (body : M A) (handler : exn -> M A) :
  traced body -> (forall e, traced (handler e)) -> traced (try_catch body handler).
Proof.
  intros Hm Hk s. specialize (Hm s). unfold try_catch, store_of, trace_of in *.
  destruct (body s) as [[[a | e] s1] t1]; simpl in *.
  - assumption.
  - specialize (Hk e s1). unfold store_of, trace_of in Hk.
    destruct (handler e s1) as [[r2 s2] t2]; simpl in *.
    rewrite replay_app. now subst.
Qed.

Lemma traced_try_finally {A} (body : M A) (fin : M unit) :
  traced body -> traced fin -> traced (try_finally body fin).
Proof.
  intros Hm Hk s. specialize (Hm s). unfold try_finally, store_of, trace_of in *.
  destruct (body s) as [[r s1] t1]; simpl in *.
  specialize (Hk s1). unfold store_of, trace_of in Hk.
  destruct (fin s1) as [[[u | e] s2] t2]; simpl in *;
    rewrite replay_app; now subst.
Qed.

Lemma traced_clearFileInput : traced clearFileInput.
Proof.
  intros s. unfold clearFileInput, store_of, trace_of.
  destruct (fileInput s) eqn:Hf; [reflexivity |]. reflexivity.
Qed.

Create HintDb traced.
Hint Resolve traced_ret traced_throw traced_lift traced_clearFileInput : traced.

Ltac traced_step :=
  match goal with
  | |- traced (bind _ _) => apply traced_bind; [| intros ?]
  | |- traced (try_catch _ _) => apply traced_try_catch; [| intros ?]
  | |- traced (try_finally _ _) => apply traced_try_finally
  | |- traced (if ?b then _ else _) => destruct b
  | |- traced (match ?o with Rejected => _ | Resolved _ => _ end) => destruct o
  | |- traced (match ?o with Some _ => _ | None => _ end) => destruct o
  | |- traced _ => solve [auto with traced | intros ?; reflexivity]
  end.

Lemma traced_fetch (r : request) (o : fetch_outcome) : traced (fetch r o).
Proof. unfold fetch. repeat traced_step. Qed.

Lemma traced_json (resp : response) : traced (json resp).
Proof. unfold json. repeat traced_step. Qed.

Hint Resolve traced_fetch traced_json : traced.

Lemma traced_fetchEvents (w : world) : traced (fetchEvents w).
Proof. unfold fetchEvents. repeat traced_step. Qed.

Hint Resolve traced_fetchEvents : traced.

Lemma traced_handleSubmit_closure (w : world) (snap : store) :
  traced (handleSubmit_closure w snap).
Proof. unfold handleSubmit_closure. repeat traced_step. Qed.

(** Every run of [fetchEvents] ends normally, with one request, at most one
    logged error and one replacement of the event list. *)
Lemma fetchEvents_run (w : world) (s : store) :
  exists events mid,
    fetchEvents w s =
      (Ok tt, with_events s events,
       [EvFetch calendar_request; EvSettled calendar_request] ++ mid
         ++ [EvSetCalendarEvents events])%list
    /\ (mid = [] \/ exists e, mid = [EvConsoleError e]).
Proof.
  unfold fetchEvents, with_events.
  destruct (cal_outcome w) as [| [okay st [d |]]].
  - exists (VArr []), [EvConsoleError NetworkError]. split; [reflexivity | eauto].
  - destruct okay.
    + destruct d; cbn;
        try (exists (VArr []), [EvConsoleError TypeError]; split; [reflexivity | eauto]);
        try (exists (VArr []), []; split; [reflexivity | eauto]).
      destruct (truthy (lookup "events" fields));
          [exists (lookup "events" fields), [] | exists (VArr []), []];
          (split; [reflexivity | eauto]).
    + exists (VArr []), [EvConsoleError (HttpError st)]. split; [reflexivity | eauto].
  - destruct okay.
    + exists (VArr []), [EvConsoleError SyntaxError]. split; [reflexivity | eauto].
    + exists (VArr []), [EvConsoleError (HttpError st)]. split; [reflexivity | eauto].
Qed.

(** *** Reading a parsed body *)

Lemma get_prop_field (d : value) (k : string) :
  get_prop d k = if nullish d then Throw TypeError else Ok (field d k).
Proof. reflexivity. Qed.

Lemma parse_answer_eq (d : value) :
  parse_answer d =
    if nullish d then Throw TypeError
    else Ok (coalesce (field d "answer")
               (coalesce (field d "result") (VStr placeholder_text))).
Proof.
  unfold parse_answer, get_prop, coalesce. destruct (nullish d); [reflexivity |].
  cbn. destruct (nullish (field d "answer")); reflexivity.
Qed.

Lemma parse_intent_eq (d : value) :
  parse_intent d =
    if nullish d then Throw TypeError
    else Ok (coalesce (field d "intent") (VStr "rag")).
Proof. unfold parse_intent, get_prop. destruct (nullish d); reflexivity. Qed.

Lemma parse_pages_eq (d : value) :
  parse_pages d =
    if nullish d then Throw TypeError
    else Ok match field d "pages" with VArr items => items | _ => [] end.
Proof. unfold parse_pages, get_prop. destruct (nullish d); reflexivity. Qed.

(** The reply to a body is built from its three parsed parts. *)
Lemma agent_reply_eq (now : number) (d answerText intent : value)
    (pages : list value) :
  parse_answer d = Ok answerText ->
  parse_intent d = Ok intent ->
  parse_pages d = Ok pages ->
  agent_reply now d =
    (dc <- cite (strict_eq_string intent "reminder") answerText pages ;;
     Ok ({| id := "agent-" ++ number_to_string now;
            msg_role := Agent;
            name := "Mindual";
            content := fst dc;
            imageUrl := VUndefined;
            variant :=
              if strict_eq_string intent "reminder" then VStr "reminder"
              else VUndefined;
            sourceImage := snd dc |},
         strict_eq_string intent "reminder"))%result.
Proof.
  intros Ha Hi Hp. unfold agent_reply. rewrite Ha, Hi, Hp. reflexivity.
Qed.


(** *** Accepted submits *)

(** The store in which the reply of an accepted submit has just been
    appended. *)
Lemma handleSubmit_replied (w : world) (s : store) (r : response) (data : value)
    (msg : message) (isReminder : bool) :
  rejects s = false ->
  ask_outcome w = Resolved r -> ok r = true -> body r = Some data ->
  agent_reply (time_reply w) data = Ok (msg, isReminder) ->
  let mid := replay (submit_steps w s ++ [EvAppendMessage msg]) s in
  exists events cal_tr,
    handleSubmit w s =
      (Ok tt, settled s [submitted w s; msg] events,
       (submit_steps w s ++ [EvAppendMessage msg]) ++ cal_tr ++ finally_steps s)%list
    /\ (if isReminder
        then fetchEvents w mid = (Ok tt, with_events mid events, cal_tr)
        else events = calendarEvents s /\ cal_tr = []).
Proof.
  intros Hrej Hask Hok Hbody Hreply mid.
  destruct r as [okay st b]. cbn in Hok, Hbody. subst okay b.
  destruct isReminder.
  - destruct (fetchEvents_run w mid) as (events & tr & Hrun & _).
    exists events. eexists. split; [| exact Hrun].
    unfold mid, submit_steps, submitted, ask_request in Hrun. cbn -[fetchEvents] in Hrun.
    unfold handleSubmit, handleSubmit_closure, settled, submit_steps, finally_steps,
      submitted, ask_request.
    unfold bind at 1. unfold emit at 1. rewrite Hrej, Hask.
    unfold try_finally, try_catch.
    cbn -[fetchEvents agent_reply]. rewrite Hreply. cbn -[fetchEvents].
    rewrite Hrun. cbn.
    destruct (fileInput s); cbn; rewrite <- app_assoc; reflexivity.
  - exists (calendarEvents s), []. split; [| split; reflexivity].
    unfold handleSubmit, handleSubmit_closure, settled, submit_steps, finally_steps,
      submitted, ask_request.
    unfold bind at 1. unfold emit at 1. rewrite Hrej, Hask.
    unfold try_finally, try_catch.
    cbn -[agent_reply]. rewrite Hreply. cbn.
    destruct (fileInput s); cbn; rewrite <- app_assoc; reflexivity.
Qed.

(** A body the reply cannot be built from takes the failure path. *)
Lemma handleSubmit_reply_throws (w : world) (s : store) (r : response) (data : value)
    (e : exn) :
  rejects s = false ->
  ask_outcome w = Resolved r -> ok r = true -> body r = Some data ->
  agent_reply (time_reply w) data = Throw e ->
  handleSubmit w s =
    (Ok tt, settled s [submitted w s; apology_message (time_reply w)] (calendarEvents s),
     submit_steps w s
       ++ [EvConsoleError e; EvAppendMessage (apology_message (time_reply w))]
       ++ finally_steps s)%list.
Proof.
  intros Hrej Hask Hok Hbody Hreply.
  destruct r as [okay st b]. cbn in Hok, Hbody. subst okay b.
  unfold handleSubmit, handleSubmit_closure, settled, submit_steps, finally_steps,
    submitted, ask_request.
  unfold bind at 1. unfold emit at 1. rewrite Hrej, Hask.
  unfold try_finally, try_catch.
  cbn -[agent_reply]. rewrite Hreply. cbn.
  destruct (fileInput s); cbn; rewrite <- app_assoc; reflexivity.
Qed.

Lemma replay_loading (tr : list event) (s : store) :
  forallb (fun e => negb (sets_loading e)) tr = true ->
  loading (replay tr s) = loading s.
Proof.
  revert s. induction tr as [| e tr IH]; intros s Hall; [reflexivity |].
  cbn in Hall. apply andb_prop in Hall. destruct Hall as [He Htr].
  change (replay (e :: tr) s) with (replay tr (step s e)).
  rewrite (IH _ Htr). destruct e; try reflexivity. discriminate He.
Qed.

Lemma forallb_firstn {A} (f : A -> bool) (n : nat) (l : list A) :
  forallb f l = true -> forallb f (firstn n l) = true.
Proof.
  intros Hall. apply forallb_forall. intros x Hin.
  rewrite forallb_forall in Hall. apply Hall.
  rewrite <- (firstn_skipn n l). apply in_or_app. now left.
Qed.

Lemma strict_eq_string_true (v : value) (s : string) :
  strict_eq_string v s = true <-> v = VStr s.
Proof.
  split.
  - destruct v; try discriminate. cbn. intros Heq.
    apply String.eqb_eq in Heq. now subst.
  - intros ->. cbn. apply String.eqb_refl.
Qed.

(** A reminder reply never reads the cited pages. *)
Lemma cite_reminder (answerText : value) (pages : list value) :
  cite true answerText pages = Ok (answerText, VNull).
Proof. reflexivity. Qed.


(** *** The first cited page *)

Lemma page_number_eq (firstPage : value) :
  page_number firstPage =
    if nullish firstPage then Throw TypeError
    else Ok (if nullish (field firstPage "page") then field firstPage "page_number"
             else field firstPage "page").
Proof.
  unfold page_number, get_prop. destruct (nullish firstPage); [reflexivity |].
  cbn. destruct (nullish (field firstPage "page")); reflexivity.
Qed.

Lemma page_image_url_eq (firstPage : value) :
  page_image_url firstPage =
    if nullish firstPage then Throw TypeError
    else Ok (first_present non_nullish
               [field firstPage "image_url"; field firstPage "page_image";
                field firstPage "pageImage"]).
Proof.
  unfold page_image_url, get_prop, first_present, non_nullish, coalesce.
  destruct (nullish firstPage); [reflexivity |]. cbn.
  destruct (nullish (field firstPage "image_url")); [| reflexivity]. cbn.
  destruct (nullish (field firstPage "page_image")); [| reflexivity]. cbn.
  destruct (nullish (field firstPage "pageImage")); reflexivity.
Qed.

Lemma truthy_not_nullish (v : value) : truthy v = true -> nullish v = false.
Proof. destruct v; try reflexivity; discriminate. Qed.

Lemma resolve_source_image_eq (b64 url path : value) :
  resolve_source_image (coalesce b64 VNull) url (coalesce path VNull) =
    first_present truthy [b64; url; path].
Proof.
  unfold resolve_source_image, first_present, coalesce. cbn.
  destruct (truthy b64) eqn:Hb.
  - rewrite (truthy_not_nullish _ Hb), Hb. reflexivity.
  - assert (Hb' : truthy (if nullish b64 then VNull else b64) = false)
      by (destruct (nullish b64); [reflexivity | exact Hb]).
    rewrite Hb'. destruct (truthy url); [reflexivity |].
    destruct (truthy path) eqn:Hp.
    + rewrite (truthy_not_nullish _ Hp), Hp. reflexivity.
    + assert (Hp' : truthy (if nullish path then VNull else path) = false)
        by (destruct (nullish path); [reflexivity | exact Hp]).
      now rewrite Hp'.
Qed.

(** What [cite] does with a first page that has properties. *)
Lemma cite_first_page (answerText firstPage : value) (rest : list value) (pageNum : value) :
  page_number firstPage = Ok pageNum ->
  cite false answerText (firstPage :: rest) =
    (decoratedAnswer <- decorate answerText pageNum ;;
     Ok (decoratedAnswer,
         first_present truthy
           [field firstPage "image_base64";
            first_present non_nullish
              [field firstPage "image_url"; field firstPage "page_image";
               field firstPage "pageImage"];
            field firstPage "image_path"]))%result.
Proof.
  intros Hpn.
  assert (Hnn : nullish firstPage = false).
  { rewrite page_number_eq in Hpn. destruct (nullish firstPage); [discriminate | reflexivity]. }
  unfold cite. rewrite Hpn, page_image_url_eq, !get_prop_field, Hnn.
  cbn [rbind]. now rewrite resolve_source_image_eq.
Qed.

Lemma decorate_string (a : string) (pageNum : value) (p : string) :
  to_string pageNum = Ok p ->
  decorate (VStr a) pageNum =
    Ok (VStr (if truthy pageNum && negb (string_includes a citation_marker)
              then a ++ citation_line p else a)).
Proof.
  intros Hp. unfold decorate, add_string. destruct (truthy pageNum); [| reflexivity].
  cbn. destruct (string_includes a citation_marker); [reflexivity |].
  cbn. rewrite Hp. reflexivity.
Qed.

(** C3.  A submit whose trimmed question is empty with no file attached, or
    that finds a submission in flight, does nothing: the run ends normally in
    the very store it started from (same messages, input text, loading flag
    and image state), and its trace holds neither a request nor a state
    update.  The guard is evaluated on the values the handler closed over. *)
Theorem handleSubmit_rejected (w : world) (snap s : store) :
  (trim (question snap) = "" /\ imageFile snap = None) \/ loading snap = true ->
  handleSubmit_closure w snap s = (Ok tt, s, [EvPreventDefault])
  /\ (snap = s -> handleSubmit w s = (Ok tt, s, [EvPreventDefault])).
Proof.
  intros Hguard.
  assert (Hrej : rejects snap = true).
  { unfold rejects. destruct Hguard as [[Hq Hf] | Hl].
    - rewrite Hq, Hf. reflexivity.
    - rewrite Hl. apply orb_true_r. }
  assert (Hrun : handleSubmit_closure w snap s = (Ok tt, s, [EvPreventDefault])).
  { unfold handleSubmit_closure, bind, emit. rewrite Hrej. reflexivity. }
  split; [exact Hrun |].
  intros ->. exact Hrun.
Qed.

(** C5.  When the question-answering request fails (the fetch rejects, the
    status is not 2xx, or the body is not JSON), an accepted submit appends
    exactly one agent message after the user's: the fixed apology, with no
    citation and no source image; the run ends normally with the loading flag
    cleared and the attached file dropped. *)
Theorem ask_failure_apologises (w : world) (s : store) :
  rejects s = false ->
  fetch_failed (ask_outcome w) = true ->
  let apology := apology_message (time_reply w) in
  exists tr,
    handleSubmit w s =
      (Ok tt, settled s [submitted w s; apology] (calendarEvents s), tr)
    /\ appended tr = [submitted w s; apology]
    /\ msg_role (submitted w s) = User
    /\ msg_role apology = Agent
    /\ content apology = VStr apology_text
    /\ string_includes apology_text citation_marker = false
    /\ sourceImage apology = VUndefined
    /\ source_image_src apology = Ok None.
Proof.
  intros Hrej Hfail apology. subst apology.
  assert (Hrun : exists tr,
    handleSubmit w s =
      (Ok tt, settled s [submitted w s; apology_message (time_reply w)] (calendarEvents s), tr)
    /\ appended tr = [submitted w s; apology_message (time_reply w)]).
  { unfold handleSubmit, handleSubmit_closure, submitted, settled.
    unfold bind at 1. unfold emit at 1. rewrite Hrej.
    destruct (ask_outcome w) as [| [okay st [data |]]] eqn:Hask;
      [| destruct okay; [discriminate Hfail |] | destruct okay];
      destruct (fileInput s) eqn:Hfi;
      eexists; (split; [cbn; rewrite Hfi; cbn; rewrite <- app_assoc; reflexivity |]);
      reflexivity. }
  destruct Hrun as (tr & Hrun & Happ).
  exists tr. repeat split; assumption.
Qed.

(** C7.  An event fetch always ends normally and touches nothing but the
    event list, which it replaces as a whole by a value that depends on the
    response alone: for a 2xx JSON body, the value of [data.events || []]
    (the empty list when reading [events] throws, as for the body [null]), so
    the [events] array when there is one and the empty list when the field
    is absent; and the empty list after any failure (rejected fetch, non-2xx
    status, body that is not JSON).  Every fetch is one of these cases.  No
    message is appended. *)
Theorem fetchEvents_replaces (w : world) (s : store) :
  exists events tr,
    fetchEvents w s = (Ok tt, with_events s events, tr)
    /\ appended tr = []
    /\ (forall r data,
          cal_outcome w = Resolved r -> ok r = true -> body r = Some data ->
          events = match get_prop data "events" with
                   | Ok v => if truthy v then v else VArr []
                   | Throw _ => VArr []
                   end)
    /\ (forall r data items,
          cal_outcome w = Resolved r -> ok r = true -> body r = Some data ->
          get_prop data "events" = Ok (VArr items) -> events = VArr items)
    /\ (forall r data v,
          cal_outcome w = Resolved r -> ok r = true -> body r = Some data ->
          get_prop data "events" = Ok v -> nullish v = true -> events = VArr [])
    /\ (fetch_failed (cal_outcome w) = true -> events = VArr [])
    /\ (fetch_failed (cal_outcome w) = true
        \/ exists r data, cal_outcome w = Resolved r /\ ok r = true /\ body r = Some data).
Proof.
  set (stored := fun d : value =>
         match get_prop d "events" with
         | Ok v => if truthy v then v else VArr []
         | Throw _ => VArr []
         end).
  assert (Hrun : forall r d, cal_outcome w = Resolved r -> ok r = true -> body r = Some d ->
            exists tr, fetchEvents w s = (Ok tt, with_events s (stored d), tr)
                       /\ appended tr = []).
  { intros [okay st b] d Hcal Hok Hb. cbn in Hok, Hb. subst okay b.
    unfold fetchEvents, with_events, stored. rewrite Hcal.
    destruct d; cbn; eexists; split; reflexivity. }
  destruct (cal_outcome w) as [| [okay st [d |]]] eqn:Hcal.
  - exists (VArr []). eexists.
    split; [unfold fetchEvents; rewrite Hcal; reflexivity |].
    split; [reflexivity |].
    split; [intros; discriminate |]. split; [intros; discriminate |].
    split; [intros; discriminate |]. split; [reflexivity | left; reflexivity].
  - destruct okay.
    + destruct (Hrun _ d eq_refl eq_refl eq_refl) as (tr & Hr & Happ).
      exists (stored d), tr. split; [exact Hr |]. split; [exact Happ |].
      split; [| split; [| split; [| split]]].
      * intros r d' Heq _ Hb. injection Heq as <-. cbn in Hb.
        injection Hb as <-. reflexivity.
      * intros r d' items Heq _ Hb Hev. injection Heq as <-. cbn in Hb.
        injection Hb as <-. unfold stored. rewrite Hev. reflexivity.
      * intros r d' v Heq _ Hb Hev Hnull. injection Heq as <-. cbn in Hb.
        injection Hb as <-. unfold stored. rewrite Hev.
        destruct v; try discriminate; reflexivity.
      * intros Hf. discriminate Hf.
      * right. exists (mkResponse true st (Some d)), d. repeat split.
    + exists (VArr []). eexists.
      split; [unfold fetchEvents; rewrite Hcal; reflexivity |].
      split; [reflexivity |].
      split; [| split; [| split; [| split; [reflexivity | left; reflexivity]]]];
        intros; try reflexivity;
        match goal with Heq : Resolved _ = Resolved _ |- _ => injection Heq as <- end;
        discriminate.
  - destruct okay; exists (VArr []); eexists;
      (split; [unfold fetchEvents; rewrite Hcal; reflexivity |]);
      (split; [reflexivity |]);
      (split; [| split; [| split; [| split; [reflexivity | left; reflexivity]]]]);
      intros; try reflexivity;
      match goal with Heq : Resolved _ = Resolved _ |- _ => injection Heq as <- end;
      cbn in *; discriminate.
Qed.

(** C8.  The message sequence only grows at its end.  Whatever the
    environment answers, the store a submit ends in is the replay of its
    trace; after every prefix of that trace the stored messages are the
    initial ones followed by the messages appended so far, in order, and the
    final sequence extends each of these intermediate ones; an event fetch
    leaves the sequence alone.  The rendered rows are the stored messages
    followed by one thinking row exactly while the loading flag is set; that
    row is never one of the stored messages. *)
Theorem messages_append_only (w : world) (snap s : store) (n : nat) :
  let run := handleSubmit_closure w snap s in
  let pre := firstn n (trace_of run) in
  let post := skipn n (trace_of run) in
  store_of run = replay (trace_of run) s
  /\ messages (replay pre s) = (messages s ++ appended pre)%list
  /\ messages (store_of run) = (messages (replay pre s) ++ appended post)%list
  /\ messages (store_of (fetchEvents w s)) = messages s
  /\ chat_rows (replay pre s) =
       (map MessageRow (messages s ++ appended pre)
          ++ (if loading (replay pre s) then [ThinkingRow] else []))%list
  /\ ~ In ThinkingRow (map MessageRow (messages (replay pre s)))
  /\ (In ThinkingRow (chat_rows (replay pre s)) <-> loading (replay pre s) = true).
Proof.
  intros run pre post.
  assert (Htr : store_of run = replay (trace_of run) s)
    by apply traced_handleSubmit_closure.
  assert (Hpre : messages (replay pre s) = (messages s ++ appended pre)%list)
    by apply replay_messages.
  assert (Hnot : forall l : list message, ~ In ThinkingRow (map MessageRow l)).
  { intros l Hin. apply in_map_iff in Hin. destruct Hin as (m & Hm & _). discriminate. }
  split; [exact Htr |]. split; [exact Hpre |]. split.
  { rewrite Htr, Hpre, replay_messages, <- app_assoc, <- appended_app.
    unfold pre, post. now rewrite firstn_skipn. }
  split.
  { destruct (fetchEvents_run w s) as (events & mid & Hrun & _).
    rewrite Hrun. reflexivity. }
  split.
  { unfold chat_rows. now rewrite Hpre. }
  split; [apply Hnot |].
  unfold chat_rows. rewrite in_app_iff. split.
  - intros [Hin | Hin]; [destruct (Hnot _ Hin) |].
    destruct (loading (replay pre s)); [reflexivity | destruct Hin].
  - intros ->. right. now left.
Qed.

(** C9.  After a successful reply whose intent is "reminder", the event
    refresh runs to completion inside the submit: the trace is the steps up
    to the appended reply, then a complete run of [fetchEvents] (request,
    settlement, replacement of the event list), and only then the [finally]
    block, whose first step clears the loading flag.  At every point of the run
    from the calendar request to the end of the refresh the loading flag is
    set. *)
Theorem reminder_refresh_awaited (w : world) (s : store) (r : response) (data : value) :
  rejects s = false ->
  ask_outcome w = Resolved r -> ok r = true -> body r = Some data ->
  parse_intent data = Ok (VStr "reminder") ->
  exists msg events before refresh,
    handleSubmit w s =
      (Ok tt, settled s [submitted w s; msg] events,
       before ++ refresh ++ finally_steps s)%list
    /\ variant msg = VStr "reminder"
    /\ fetchEvents w (replay before s)
         = (Ok tt, with_events (replay before s) events, refresh)
    /\ ~ In (EvFetch calendar_request) before
    /\ In (EvFetch calendar_request) refresh
    /\ In (EvSetCalendarEvents events) refresh
    /\ ~ In (EvSetLoading false) (before ++ refresh)%list
    /\ hd_error (finally_steps s) = Some (EvSetLoading false)
    /\ (forall n,
          In (EvFetch calendar_request) (firstn n (before ++ refresh)%list) ->
          loading (replay (firstn n (before ++ refresh)%list) s) = true).
Proof.
  intros Hrej Hask Hok Hbody Hintent.
  assert (Hnn : nullish data = false).
  { rewrite parse_intent_eq in Hintent. destruct (nullish data); [discriminate | reflexivity]. }
  destruct (parse_answer data) as [answerText |] eqn:Ha;
    [| rewrite parse_answer_eq, Hnn in Ha; discriminate].
  destruct (parse_pages data) as [pages |] eqn:Hp;
    [| rewrite parse_pages_eq, Hnn in Hp; discriminate].
  pose proof (agent_reply_eq (time_reply w) data _ _ _ Ha Hintent Hp) as Hreply.
  cbn in Hreply.
  destruct (handleSubmit_replied w s r data _ true Hrej Hask Hok Hbody Hreply)
    as (events & refresh & Hrun & Hcal).
  set (before := (submit_steps w s ++ [EvAppendMessage _])%list) in *.
  destruct (fetchEvents_run w (replay before s)) as (events' & mid & Hrun' & Hmid).
  rewrite Hcal in Hrun'. injection Hrun' as Hev Href.
  assert (Hquiet : forallb (fun e => negb (sets_loading e)) refresh = true).
  { rewrite Href. destruct Hmid as [-> | [e ->]]; reflexivity. }
  assert (Hbefore : loading (replay before s) = true) by reflexivity.
  assert (Hnofetch : ~ In (EvFetch calendar_request) before).
  { unfold before, submit_steps. cbn. intuition discriminate. }
  eexists. exists events, before, refresh.
  split; [exact Hrun |]. split; [reflexivity |]. split; [exact Hcal |].
  split; [exact Hnofetch |].
  split; [rewrite Href; now left |].
  split; [rewrite Href, Hev; right; right; apply in_or_app; right; now left |].
  split.
  { intros Hin. apply in_app_or in Hin. destruct Hin as [Hin | Hin].
    - unfold before, submit_steps in Hin. cbn in Hin. intuition discriminate.
    - rewrite forallb_forall in Hquiet. specialize (Hquiet _ Hin). discriminate. }
  split; [reflexivity |].
  intros n Hin. rewrite firstn_app in *.
  destruct (Nat.le_gt_cases n (List.length before)) as [Hle | Hgt].
  - replace (n - List.length before)%nat with 0%nat in Hin by lia.
    rewrite firstn_O, app_nil_r in Hin.
    exfalso. apply Hnofetch. rewrite <- (firstn_skipn n before).
    apply in_or_app. now left.
  - rewrite (firstn_all2 before) by lia.
    rewrite replay_app, replay_loading; [exact Hbefore |].
    now apply forallb_firstn.
Qed.

(** C4, amended.  For a successful response with parsed body [data]: when
    the body is not [null], the answer text is the [answer] field, else the
    [result] field, else the fixed placeholder, and the intent is the
    [intent] field, else "rag" (a field counts as absent when it is missing
    or [null]); a body that is itself [null] has no fields to read: both
    reads throw, the error is logged and the apology is appended.  In every
    case the one agent message the submit appends has variant "reminder"
    exactly when the parsed intent is the string "reminder". *)
Theorem reply_parsed_fields (w : world) (s : store) (r : response) (data : value) :
  rejects s = false ->
  ask_outcome w = Resolved r -> ok r = true -> body r = Some data ->
  parse_answer data =
    (if nullish data then Throw TypeError
     else Ok (coalesce (field data "answer")
                (coalesce (field data "result") (VStr placeholder_text))))
  /\ parse_intent data =
       (if nullish data then Throw TypeError
        else Ok (coalesce (field data "intent") (VStr "rag")))
  /\ exists agent events tr,
       handleSubmit w s = (Ok tt, settled s [submitted w s; agent] events, tr)
       /\ msg_role agent = Agent
       /\ (variant agent = VStr "reminder" <-> parse_intent data = Ok (VStr "reminder"))
       /\ (nullish data = true ->
           agent = apology_message (time_reply w)
           /\ events = calendarEvents s
           /\ In (EvConsoleError TypeError) tr).
Proof.
  intros Hrej Hask Hok Hbody.
  split; [apply parse_answer_eq |]. split; [apply parse_intent_eq |].
  assert (Hnull : nullish data = true ->
                  agent_reply (time_reply w) data = Throw TypeError).
  { intros Hn. unfold agent_reply. rewrite parse_answer_eq, Hn. reflexivity. }
  destruct (agent_reply (time_reply w) data) as [[msg isReminder] | e] eqn:Hreply.
  - assert (Hnn : nullish data = true -> False)
      by (intros Hn; specialize (Hnull Hn); discriminate Hnull).
    destruct (handleSubmit_replied w s r data msg isReminder Hrej Hask Hok Hbody Hreply)
      as (events & cal_tr & Hrun & _).
    exists msg, events. eexists. split; [exact Hrun |].
    unfold agent_reply in Hreply.
    destruct (parse_answer data) as [a |]; [| discriminate].
    destruct (parse_intent data) as [i |]; [| discriminate].
    destruct (parse_pages data) as [p |]; [| discriminate].
    cbn in Hreply.
    destruct (cite (strict_eq_string i "reminder") a p) as [dc |]; [| discriminate].
    cbn in Hreply. injection Hreply as <- _. cbn. split; [reflexivity |].
    split; [| intros Hn; destruct (Hnn Hn)].
    destruct (strict_eq_string i "reminder") eqn:Hi.
    + apply strict_eq_string_true in Hi. subst i. split; reflexivity.
    + split; [discriminate |]. intros Heq. injection Heq as ->.
      cbn in Hi. discriminate.
  - exists (apology_message (time_reply w)), (calendarEvents s). eexists.
    split; [exact (handleSubmit_reply_throws w s r data e Hrej Hask Hok Hbody Hreply) |].
    split; [reflexivity |].
    split; [split; [discriminate |] |].
    + intros Hintent. exfalso.
      unfold agent_reply in Hreply. rewrite Hintent in Hreply.
      destruct (parse_answer data) as [a |] eqn:Ha.
      * destruct (parse_pages data) as [p |] eqn:Hp.
        -- discriminate Hreply.
        -- rewrite parse_pages_eq in Hp. rewrite parse_intent_eq in Hintent.
           destruct (nullish data); discriminate.
      * rewrite parse_answer_eq in Ha. rewrite parse_intent_eq in Hintent.
        destruct (nullish data); discriminate.
    + intros Hn. specialize (Hnull Hn). injection Hnull as ->.
      split; [reflexivity |]. split; [reflexivity |].
      apply in_or_app. right. left. reflexivity.
Qed.


(** C1, amended.  For a successful response with a string answer, an intent
    other than "reminder" and a non-empty cited-page list whose first page has
    properties and a page number ([page], else [page_number]) that renders as
    [p]: the content of the appended agent message is the answer followed by
    the citation line for [p] exactly when the page number is truthy and the
    answer does not contain the marker; it is the answer unchanged exactly
    when the page number is falsy (absent, [null], zero, empty) or the answer
    already contains the marker. *)
Theorem citation_appended_iff (w : world) (s : store) (r : response)
    (data intent firstPage pageNum : value) (rest : list value) (a p : string) :
  rejects s = false ->
  ask_outcome w = Resolved r -> ok r = true -> body r = Some data ->
  parse_answer data = Ok (VStr a) ->
  parse_intent data = Ok intent -> strict_eq_string intent "reminder" = false ->
  parse_pages data = Ok (firstPage :: rest) ->
  page_number firstPage = Ok pageNum -> to_string pageNum = Ok p ->
  exists agent events tr,
    handleSubmit w s = (Ok tt, settled s [submitted w s; agent] events, tr)
    /\ msg_role agent = Agent
    /\ content agent =
         VStr (if truthy pageNum && negb (string_includes a citation_marker)
               then a ++ citation_line p else a)
    /\ (content agent = VStr (a ++ citation_line p)
        <-> truthy pageNum = true /\ string_includes a citation_marker = false)
    /\ (content agent = VStr a
        <-> truthy pageNum = false \/ string_includes a citation_marker = true).
Proof.
  intros Hrej Hask Hok Hbody Ha Hi Hrem Hp Hpn Hts.
  pose proof (agent_reply_eq (time_reply w) data _ _ _ Ha Hi Hp) as Hreply.
  rewrite Hrem, (cite_first_page _ _ _ _ Hpn), (decorate_string _ _ _ Hts) in Hreply.
  cbn [rbind fst snd] in Hreply.
  destruct (handleSubmit_replied w s r data _ _ Hrej Hask Hok Hbody Hreply)
    as (events & refresh & Hrun & _).
  eexists. exists events. eexists. split; [exact Hrun |].
  split; [reflexivity |]. split; [reflexivity |].
  cbn [content].
  assert (Hne : a ++ citation_line p <> a).
  { intros Heq. apply (f_equal String.length) in Heq.
    rewrite string_append_length in Heq. unfold citation_line in Heq.
    rewrite string_append_length in Heq. cbn in Heq. lia. }
  clear Hreply Hrun.
  set (cited := a ++ citation_line p) in *. clearbody cited.
  destruct (truthy pageNum), (string_includes a citation_marker); cbn [andb negb];
    intuition congruence.
Qed.


(** C2, amended.  The source image resolved from the first cited page is the
    first truthy value among the embedded image, the URL field (the first of
    [image_url], [page_image], [pageImage] that is neither missing nor
    [null]) and the filesystem path, and [null] when none is truthy.  At
    render time a non-empty string value is used as it is exactly when it
    starts with "data:" or "http"; otherwise it is prefixed with the back-end
    origin, with one "/" in between when it does not start with "/". *)
Theorem source_image_resolution (answerText firstPage : value) (rest : list value)
    (dc : value * value) (m : message) (v : string) :
  cite false answerText (firstPage :: rest) = Ok dc ->
  msg_role m = Agent -> sourceImage m = VStr v -> v <> "" ->
  snd dc =
    first_present truthy
      [field firstPage "image_base64";
       first_present non_nullish
         [field firstPage "image_url"; field firstPage "page_image";
          field firstPage "pageImage"];
       field firstPage "image_path"]
  /\ source_image_src m = Ok (Some (VStr (rendered_src v)))
  /\ (rendered_src v = v
      <-> String.prefix "data:" v = true \/ String.prefix "http" v = true)
  /\ (String.prefix "data:" v = false -> String.prefix "http" v = false ->
      rendered_src v =
        if String.prefix "/" v then BACKEND_BASE_URL ++ v
        else BACKEND_BASE_URL ++ "/" ++ v).
Proof.
  intros Hcite Hrole Hsrc Hv.
  split.
  { destruct (page_number firstPage) as [pageNum | e] eqn:Hpn.
    - rewrite (cite_first_page _ _ _ _ Hpn) in Hcite.
      destruct (decorate answerText pageNum); [| discriminate].
      cbn in Hcite. injection Hcite as <-. reflexivity.
    - unfold cite in Hcite. rewrite Hpn in Hcite. discriminate. }
  split.
  { unfold source_image_src, rendered_src. rewrite Hrole, Hsrc. cbn.
    destruct (String.eqb v "") eqn:He; [apply String.eqb_eq in He; contradiction |].
    cbn. destruct (String.prefix "data:" v); cbn; [reflexivity |].
    destruct (String.prefix "http" v); cbn; [reflexivity |].
    destruct (String.prefix "/" v); reflexivity. }
  split.
  { unfold rendered_src.
    destruct (String.prefix "data:" v); [cbn; split; auto |].
    destruct (String.prefix "http" v); [cbn; split; auto |]. cbn [orb].
    split; [| intros [? | ?]; discriminate].
    intros Heq. apply (f_equal String.length) in Heq.
    rewrite !string_append_length in Heq.
    destruct (String.prefix "/" v); cbn in Heq; lia. }
  intros Hd Hh. unfold rendered_src. rewrite Hd, Hh. cbn.
  destruct (String.prefix "/" v); reflexivity.
Qed.

End PipelineFacts.

(** * Sample runs and counterexamples *)

Lemma handleSubmit_rejected_witness :
  ((@trim ZHost (question blank_store) = "" /\ imageFile blank_store = None)
   \/ loading blank_store = true)
  /\ handleSubmit (sample_world server_error Rejected) blank_store
     = (Ok tt, blank_store, [EvPreventDefault]).
Proof.
  assert (Hguard : (@trim ZHost (question blank_store) = "" /\ imageFile blank_store = None)
                   \/ loading blank_store = true)
    by (left; split; reflexivity).
  split; [exact Hguard |].
  exact (proj2 (@handleSubmit_rejected ZHost (sample_world server_error Rejected)
                  blank_store blank_store Hguard) eq_refl).
Defined.

Lemma ask_failure_apologises_witness :
  rejects sample_store = false
  /\ fetch_failed server_error = true
  /\ exists tr,
       handleSubmit (sample_world server_error Rejected) sample_store
       = (Ok tt,
          settled sample_store
            [submitted (sample_world server_error Rejected) sample_store;
             @apology_message ZHost 1730505601500]
            (VArr []),
          tr).
Proof.
  split; [reflexivity |]. split; [reflexivity |].
  destruct (@ask_failure_apologises ZHost (sample_world server_error Rejected) sample_store
              eq_refl eq_refl) as (tr & Hrun & _).
  exists tr. exact Hrun.
Defined.

(** The claim C1 fails for a first cited page numbered 0: the answer has no
    marker, yet no citation line is appended. *)
Lemma cites_unless_marked_fails :
  ~ cites_unless_marked (sample_world (reply_with body_page0) Rejected) sample_store.
Proof.
  intros Hclaim.
  set (w := sample_world (reply_with body_page0) Rejected) in *.
  set (a := "필터는 6개월마다 교체하세요.") in *.
  destruct (Hclaim (@mkResponse ZHost true 200 (Some body_page0)) body_page0
              a (VStr "rag") page0 [] (znum 0) "0"
              eq_refl eq_refl eq_refl eq_refl eq_refl eq_refl eq_refl eq_refl eq_refl eq_refl)
    as (agent & events & tr & Hrun & Hcontent).
  pose proof (@agent_reply_eq ZHost (time_reply w) body_page0 (VStr a) (VStr "rag") [page0]
                eq_refl eq_refl eq_refl) as Hreply.
  change (@strict_eq_string ZHost (VStr "rag") "reminder") with false in Hreply.
  rewrite (@cite_first_page ZHost (VStr a) page0 [] (znum 0) eq_refl) in Hreply.
  rewrite (@decorate_string ZHost a (znum 0) "0" eq_refl) in Hreply.
  cbn [rbind fst snd] in Hreply.
  destruct (@handleSubmit_replied ZHost w sample_store _ body_page0 _ _
              eq_refl eq_refl eq_refl eq_refl Hreply)
    as (events' & refresh & Hrun' & _).
  rewrite Hrun' in Hrun. injection Hrun as Hagent _.
  subst agent. cbn [content] in Hcontent.
  injection Hcontent as Hcontent.
  apply (f_equal String.length) in Hcontent.
  vm_compute in Hcontent. discriminate Hcontent.
Qed.

Lemma citation_appended_iff_witness :
  rejects sample_store = false
  /\ parse_answer body_cited = Ok (VStr "필터는 6개월마다 교체하세요.")
  /\ parse_pages body_cited = Ok [page7]
  /\ page_number page7 = Ok (znum 7)
  /\ exists agent events tr,
       handleSubmit (sample_world (reply_with body_cited) Rejected) sample_store
       = (Ok tt,
          settled sample_store
            [submitted (sample_world (reply_with body_cited) Rejected) sample_store; agent]
            events,
          tr)
       /\ content agent = VStr ("필터는 6개월마다 교체하세요." ++ citation_line "7").
Proof.
  split; [reflexivity |]. split; [reflexivity |]. split; [reflexivity |].
  split; [reflexivity |].
  destruct (@citation_appended_iff ZHost
              (sample_world (reply_with body_cited) Rejected) sample_store
              (@mkResponse ZHost true 200 (Some body_cited)) body_cited
              (VStr "rag") page7 (znum 7) [] "필터는 6개월마다 교체하세요." "7"
              eq_refl eq_refl eq_refl eq_refl eq_refl eq_refl eq_refl eq_refl eq_refl eq_refl)
    as (agent & events & tr & Hrun & _ & Hcontent & _).
  exists agent, events, tr. split; [exact Hrun | exact Hcontent].
Defined.

(** The claim C2 fails on a page whose [image_url] is the empty string while
    [page_image] holds a path, whether "present" means "not null" or
    "truthy": the code resolves no image at all. *)
Lemma resolves_first_present_fails :
  ~ resolves_first_present non_nullish page_aliased
  /\ ~ resolves_first_present truthy page_aliased.
Proof.
  assert (Hcode : cite false (VStr "") [page_aliased]
                  = Ok (VStr (citation_line "3"), VNull))
    by reflexivity.
  split; intros Hclaim;
    pose proof (Hclaim (VStr "") [] (VStr (citation_line "3"), VNull) Hcode) as Hsnd;
    cbn [snd] in Hsnd.
  - assert (Hval : first_present non_nullish
                     [field page_aliased "image_base64";
                      first_present non_nullish
                        [field page_aliased "image_url"; field page_aliased "page_image";
                         field page_aliased "pageImage"];
                      field page_aliased "image_path"] = VStr "")
      by reflexivity.
    rewrite Hval in Hsnd. discriminate Hsnd.
  - assert (Hval : first_present truthy
                     [field page_aliased "image_base64";
                      first_present truthy
                        [field page_aliased "image_url"; field page_aliased "page_image";
                         field page_aliased "pageImage"];
                      field page_aliased "image_path"]
                   = VStr "/manual_images/1/page_3.png")
      by reflexivity.
    rewrite Hval in Hsnd. discriminate Hsnd.
Qed.

Lemma source_image_resolution_witness :
  cite false (VStr "필터는 6개월마다 교체하세요.") [page7]
    = Ok (VStr ("필터는 6개월마다 교체하세요." ++ citation_line "7"),
          VStr "data:image/png;base64,iVBORw0KGgo=")
  /\ source_image_src
       (@mkMessage ZHost "agent-1730505601500" Agent "Mindual" (VStr "")
          VUndefined VUndefined (VStr "/manual_images/1/page_7.png"))
     = Ok (Some (VStr "http://127.0.0.1:8000/manual_images/1/page_7.png")).
Proof.
  split; [reflexivity |].
  destruct (@source_image_resolution ZHost
              (VStr "필터는 6개월마다 교체하세요.") page7 [] _
              (@mkMessage ZHost "agent-1730505601500" Agent "Mindual" (VStr "")
                 VUndefined VUndefined (VStr "/manual_images/1/page_7.png"))
              "/manual_images/1/page_7.png"
              eq_refl eq_refl eq_refl ltac:(discriminate))
    as (_ & Hsrc & _).
  exact Hsrc.
Defined.

(** The claim C4 fails for a 2xx response whose JSON body is [null]: there
    is no field to read, the parse throws. *)
Lemma parses_every_payload_fails :
  ~ parses_every_payload (sample_world (reply_with VNull) Rejected) sample_store.
Proof.
  intros Hclaim.
  destruct (Hclaim (@mkResponse ZHost true 200 (Some VNull)) VNull
              eq_refl eq_refl eq_refl eq_refl) as (Hanswer & _).
  assert (Hthrows : parse_answer (@VNull ZHost) = Throw TypeError) by reflexivity.
  rewrite Hthrows in Hanswer. discriminate Hanswer.
Qed.

Lemma reply_parsed_fields_witness :
  rejects sample_store = false
  /\ exists agent events tr,
       handleSubmit (sample_world (reply_with body_reminder) (reply_with body_events))
         sample_store
       = (Ok tt,
          settled sample_store
            [submitted (sample_world (reply_with body_reminder) (reply_with body_events))
               sample_store; agent]
            events,
          tr)
       /\ variant agent = VStr "reminder".
Proof.
  split; [reflexivity |].
  destruct (@reply_parsed_fields ZHost
              (sample_world (reply_with body_reminder) (reply_with body_events))
              sample_store (@mkResponse ZHost true 200 (Some body_reminder)) body_reminder
              eq_refl eq_refl eq_refl eq_refl)
    as (_ & _ & agent & events & tr & Hrun & _ & Hvariant & _).
  exists agent, events, tr. split; [exact Hrun |].
  apply Hvariant. reflexivity.
Defined.

Lemma fetchEvents_replaces_witness :
  exists tr,
    fetchEvents (sample_world Rejected (reply_with body_events)) sample_store
    = (Ok tt, with_events sample_store (VArr [sample_event]), tr).
Proof.
  destruct (@fetchEvents_replaces ZHost
              (sample_world Rejected (reply_with body_events)) sample_store)
    as (events & tr & Hrun & _ & _ & Hlist & _).
  exists tr.
  rewrite <- (Hlist (@mkResponse ZHost true 200 (Some body_events)) body_events
                [sample_event] eq_refl eq_refl eq_refl eq_refl).
  exact Hrun.
Defined.

Lemma reminder_refresh_awaited_witness :
  rejects sample_store = false
  /\ parse_intent body_reminder = Ok (VStr "reminder")
  /\ exists msg events before refresh,
       handleSubmit (sample_world (reply_with body_reminder) (reply_with body_events))
         sample_store
       = (Ok tt,
          settled sample_store
            [submitted (sample_world (reply_with body_reminder) (reply_with body_events))
               sample_store; msg]
            events,
          (before ++ refresh ++ finally_steps sample_store)%list)
       /\ In (EvSetCalendarEvents events) refresh
       /\ ~ In (EvSetLoading false) (before ++ refresh)%list.
Proof.
  split; [reflexivity |]. split; [reflexivity |].
  destruct (@reminder_refresh_awaited ZHost
              (sample_world (reply_with body_reminder) (reply_with body_events))
              sample_store (@mkResponse ZHost true 200 (Some body_reminder)) body_reminder
              eq_refl eq_refl eq_refl eq_refl eq_refl)
    as (msg & events & before & refresh & Hrun & _ & _ & _ & _ & Hset & Hquiet & _).
  exists msg, events, before, refresh. repeat split; assumption.
Defined.



Lemma calendar_grid_witness :
  0 <= 10 < 12
  /\ 1 <= 2 <= JsDate.days_in_month 2026 10
  /\ (List.length
        (Calendar.cells
           (Calendar.make_calendar (Calendar.today (JsDate.days_from_civil 2026 10 2))))
      mod 7 = 0)%nat.
Proof.
  assert (Hm : 0 <= 10 < 12) by lia.
  assert (Hd : 1 <= 2 <= JsDate.days_in_month 2026 10)
    by (change (JsDate.days_in_month 2026 10) with 30; lia).
  split; [exact Hm |]. split; [exact Hd |].
  destruct (calendar_grid 2026 10 2 Hm Hd)
    as (first & lead & trail & _ & _ & _ & _ & _ & _ & _ & Hlen & _).
  exact Hlen.
Defined.

(** Known dates: 1 January 2000 was a Saturday, 10957 days into the epoch;
    29 February 2024 was a Thursday; day 0 of March 2024 is that day. *)
Example known_dates :
  JsDate.make 1970 0 1 = 0
  /\ JsDate.make 2000 0 1 = 10957 /\ JsDate.getDay (JsDate.make 2000 0 1) = 6
  /\ JsDate.civil_from_days (JsDate.make 2024 2 0) = (2024, 1, 29)
  /\ JsDate.getDay (JsDate.make 2024 1 29) = 4
  /\ JsDate.getFullYear (JsDate.make 50 0 1) = 1950.
Proof. vm_compute. repeat split. Qed.

(** November 2026 starts on a Sunday and has 30 days: no leading cell, five
    trailing ones. *)
Example calendar_november_2026 :
  let c := Calendar.make_calendar (Calendar.today (JsDate.make 2026 10 2)) in
  Calendar.month_label c = "2026년 11월"
  /\ List.length (Calendar.cells c) = 35%nat
  /\ nth 1 (Calendar.cells c) None = Some (Calendar.mkCell "2026-11-02" 2 true)
  /\ nth 29 (Calendar.cells c) None = Some (Calendar.mkCell "2026-11-30" 30 false)
  /\ nth 30 (Calendar.cells c) None = None.
Proof. vm_compute. repeat split. Qed.

(** The spec's example: page 7, all three image fields present. *)
Example reply_cites_page_7 :
  option_map (fun r => (content (fst r), sourceImage (fst r)))
    (match @agent_reply ZHost 1730505601500 body_cited with
     | Ok r => Some r
     | Throw _ => None
     end)
  = Some (VStr ("필터는 6개월마다 교체하세요." ++ nl ++ nl ++ "(참고: 매뉴얼 p.7 기반 답변)"),
          VStr "data:image/png;base64,iVBORw0KGgo=").
Proof. reflexivity. Qed.

(** * More of the component *)

Section MoreFacts.

Context {H : Host}.

Lemma handleSubmit_failed (w : world) (s : store) :
  rejects s = false ->
  fetch_failed (ask_outcome w) = true ->
  handleSubmit w s =
    (Ok tt, settled s [submitted w s; apology_message (time_reply w)] (calendarEvents s),
     submit_steps w s
       ++ [EvConsoleError (ask_error (ask_outcome w));
           EvAppendMessage (apology_message (time_reply w))]
       ++ finally_steps s)%list.
Proof.
  intros Hrej Hfail.
  unfold handleSubmit, handleSubmit_closure, settled, submit_steps, finally_steps,
    submitted, ask_request, ask_error.
  unfold bind at 1. unfold emit at 1. rewrite Hrej.
  destruct (ask_outcome w) as [| [okay st [data |]]];
    [| destruct okay; [discriminate Hfail |] | destruct okay];
    destruct (fileInput s) eqn:Hfi;
    cbn; rewrite Hfi; cbn; rewrite <- app_assoc; reflexivity.
Qed.

(** The reply to a body says "reminder" exactly when its parsed intent does. *)
Lemma agent_reply_reminder (now : number) (data : value) (msg : message) (b : bool) :
  agent_reply now data = Ok (msg, b) ->
  msg_role msg = Agent
  /\ (b = true <-> parse_intent data = Ok (VStr "reminder")).
Proof.
  unfold agent_reply. intros Hreply.
  destruct (parse_answer data) as [a |]; [| discriminate].
  destruct (parse_intent data) as [i |]; [| discriminate].
  destruct (parse_pages data) as [p |]; [| discriminate].
  cbn in Hreply.
  destruct (cite (strict_eq_string i "reminder") a p) as [dc |]; [| discriminate].
  cbn in Hreply. injection Hreply as <- <-. split; [reflexivity |].
  rewrite strict_eq_string_true. split; [intros -> | intros Heq; injection Heq]; trivial.
Qed.

Lemma agent_reply_throws (now : number) (data : value) (e : exn) :
  agent_reply now data = Throw e ->
  parse_intent data <> Ok (VStr "reminder").
Proof.
  unfold agent_reply. intros Hreply Hintent. rewrite Hintent in Hreply.
  rewrite parse_intent_eq in Hintent.
  rewrite parse_answer_eq, parse_pages_eq in Hreply.
  destruct (nullish data); [discriminate Hintent |].
  cbn in Hreply. discriminate Hreply.
Qed.

Lemma replied_or_failed (w : world) :
  fetch_failed (ask_outcome w) = true \/ exists data, replied w data.
Proof.
  destruct (ask_outcome w) as [| [okay st [data |]]] eqn:Hask; cbn.
  - now left.
  - destruct okay; [right | now left].
    exists data. unfold replied. rewrite Hask. eexists. repeat split.
  - left. now destruct okay.
Qed.

Lemma replied_not_failed (w : world) (data : value) :
  replied w data -> fetch_failed (ask_outcome w) = false.
Proof. intros (r & -> & Hok & Hb). cbn. now rewrite Hok, Hb. Qed.

Lemma fetches_app (tr1 tr2 : list event) :
  fetches (tr1 ++ tr2)%list = (fetches tr1 ++ fetches tr2)%list.
Proof.
  induction tr1 as [| e tr1 IH]; [reflexivity |].
  destruct e; cbn; rewrite IH; reflexivity.
Qed.

(** What an event fetch stores depends on the calendar endpoint alone. *)
Lemma fetchEvents_stores (w : world) (s : store) :
  exists inner,
    fetchEvents w s =
      (Ok tt, with_events s (fetched_events (cal_outcome w)),
       [EvFetch calendar_request; EvSettled calendar_request] ++ inner
         ++ [EvSetCalendarEvents (fetched_events (cal_outcome w))])%list
    /\ (inner = [] \/ exists e, inner = [EvConsoleError e]).
Proof.
  unfold fetchEvents, with_events, fetched_events.
  destruct (cal_outcome w) as [| [okay st [d |]]].
  - exists [EvConsoleError NetworkError]. split; [reflexivity | eauto].
  - destruct okay.
    + destruct d; cbn;
        try (exists [EvConsoleError TypeError]; split; [reflexivity | eauto]);
        try (exists []; split; [reflexivity | eauto]).
    + exists [EvConsoleError (HttpError st)]. split; [reflexivity | eauto].
  - destruct okay.
    + exists [EvConsoleError SyntaxError]. split; [reflexivity | eauto].
    + exists [EvConsoleError (HttpError st)]. split; [reflexivity | eauto].
Qed.

(** Every accepted submit has the same shape: the steps up to the settled
    request, a middle part that appends exactly one agent message and never
    writes the loading flag, and the [finally] block.  The middle part
    fetches the events exactly after a reply whose intent is "reminder". *)
Lemma handleSubmit_accepted (w : world) (s : store) :
  rejects s = false ->
  exists agent events mid,
    handleSubmit w s =
      (Ok tt, settled s [submitted w s; agent] events,
       submit_steps w s ++ mid ++ finally_steps s)%list
    /\ msg_role agent = Agent
    /\ appended mid = [agent]
    /\ forallb (fun e => negb (sets_loading e)) mid = true
    /\ ((fetches mid = [calendar_request]
         /\ events = fetched_events (cal_outcome w)
         /\ exists data, replied w data /\ parse_intent data = Ok (VStr "reminder"))
        \/ (fetches mid = []
            /\ events = calendarEvents s
            /\ ~ exists data, replied w data /\ parse_intent data = Ok (VStr "reminder"))).
Proof.
  intros Hrej.
  assert (Hfailed_case :
    forall e : exn,
      let mid := [EvConsoleError e; EvAppendMessage (apology_message (time_reply w))] in
      msg_role (apology_message (time_reply w)) = Agent
      /\ appended mid = [apology_message (time_reply w)]
      /\ forallb (fun e => negb (sets_loading e)) mid = true
      /\ fetches mid = []).
  { intros e mid. repeat split. }
  destruct (replied_or_failed w) as [Hfail | [data Hdata]].
  - exists (apology_message (time_reply w)), (calendarEvents s). eexists.
    split; [exact (handleSubmit_failed w s Hrej Hfail) |].
    destruct (Hfailed_case (ask_error (ask_outcome w))) as (Hr & Ha & Hl & Hf).
    split; [exact Hr |]. split; [exact Ha |]. split; [exact Hl |].
    right. split; [exact Hf |]. split; [reflexivity |].
    intros (d & Hd & _). rewrite (replied_not_failed w d Hd) in Hfail. discriminate.
  - assert (Hsame : forall d, replied w d -> d = data).
    { destruct Hdata as (r & Hask & _ & Hbody).
      intros d (r' & Hask' & _ & Hb'). rewrite Hask in Hask'. injection Hask' as <-.
      rewrite Hbody in Hb'. now injection Hb'. }
    pose proof Hdata as (r & Hask & Hok & Hbody).
    destruct (agent_reply (time_reply w) data) as [[msg isReminder] | e] eqn:Hreply.
    + destruct (handleSubmit_replied w s r data msg isReminder Hrej Hask Hok Hbody Hreply)
        as (events & refresh & Hrun & Hcal).
      destruct (agent_reply_reminder _ _ _ _ Hreply) as [Hrole Hrem].
      exists msg, events, ([EvAppendMessage msg] ++ refresh)%list.
      split; [rewrite Hrun, <- !app_assoc; reflexivity |].
      split; [exact Hrole |].
      destruct isReminder.
      * match type of Hcal with
        | fetchEvents w ?st = _ =>
            destruct (fetchEvents_stores w st) as (inner & Hrun' & Hinner)
        end.
        rewrite Hcal in Hrun'. injection Hrun' as -> ->.
        split; [destruct Hinner as [-> | [e ->]]; reflexivity |].
        split; [destruct Hinner as [-> | [e ->]]; reflexivity |].
        left. split; [destruct Hinner as [-> | [e ->]]; reflexivity |].
        split; [reflexivity |].
        exists data. split; [exact Hdata | now apply Hrem].
      * destruct Hcal as [-> ->]. rewrite app_nil_r.
        split; [reflexivity |]. split; [reflexivity |].
        right. split; [reflexivity |]. split; [reflexivity |].
        intros (d & Hd & Hint). rewrite (Hsame d Hd) in Hint.
        apply Hrem in Hint. discriminate.
    + exists (apology_message (time_reply w)), (calendarEvents s). eexists.
      split; [exact (handleSubmit_reply_throws w s r data e Hrej Hask Hok Hbody Hreply) |].
      destruct (Hfailed_case e) as (Hr & Ha & Hl & Hf).
      split; [exact Hr |]. split; [exact Ha |]. split; [exact Hl |].
      right. split; [exact Hf |]. split; [reflexivity |].
      intros (d & Hd & Hint). rewrite (Hsame d Hd) in Hint.
      destruct (agent_reply_throws _ _ _ Hreply Hint).
Qed.

Lemma submit_disabled_rejects (s : store) : submit_disabled s = rejects s.
Proof. unfold submit_disabled, rejects. apply orb_comm. Qed.

Lemma handleSubmit_noop (w : world) (s : store) :
  rejects s = true -> handleSubmit w s = (Ok tt, s, [EvPreventDefault]).
Proof.
  intros Hrej. unfold handleSubmit, handleSubmit_closure, bind, emit.
  rewrite Hrej. reflexivity.
Qed.

(** X1.  The submit button is disabled exactly in the stores where a submit
    does nothing: a submit from a store with the button disabled only calls
    [preventDefault], and a submit from a store with the button enabled sends
    the question. *)
Theorem submit_button_matches_guard (w : world) (s : store) :
  (submit_disabled s = true <-> handleSubmit w s = (Ok tt, s, [EvPreventDefault]))
  /\ (submit_disabled s = false
      <-> In (EvFetch (ask_request s)) (trace_of (handleSubmit w s))).
Proof.
  rewrite submit_disabled_rejects.
  destruct (rejects s) eqn:Hrej.
  - rewrite (handleSubmit_noop w s Hrej). split; [tauto |].
    split; [discriminate |]. cbn. intros [Hin | []]. discriminate.
  - destruct (handleSubmit_accepted w s Hrej) as (agent & events & mid & Hrun & _).
    rewrite Hrun. split.
    + split; [discriminate |]. intros Heq.
      apply (f_equal (fun run => List.length (snd run))) in Heq. cbn [snd] in Heq.
      rewrite !length_app in Heq. cbn in Heq. lia.
    + split; [intros _ | reflexivity].
      unfold trace_of, submit_steps. cbn. tauto.
Qed.


(** X3.  The requests of an accepted submit are the one POST of the question
    and, exactly when the reply's parsed intent is "reminder", one GET of the
    events after it; otherwise the event list is left as it was. *)
Theorem accepted_submit_requests (w : world) (s : store) :
  rejects s = false ->
  (fetches (trace_of (handleSubmit w s)) = [ask_request s; calendar_request]
   /\ calendarEvents (store_of (handleSubmit w s)) = fetched_events (cal_outcome w)
   /\ exists data, replied w data /\ parse_intent data = Ok (VStr "reminder"))
  \/ (fetches (trace_of (handleSubmit w s)) = [ask_request s]
      /\ calendarEvents (store_of (handleSubmit w s)) = calendarEvents s
      /\ ~ exists data, replied w data /\ parse_intent data = Ok (VStr "reminder")).
Proof.
  intros Hrej.
  destruct (handleSubmit_accepted w s Hrej)
    as (agent & events & mid & Hrun & _ & _ & _ & Hcases).
  rewrite Hrun. unfold trace_of, store_of. cbn [fst snd].
  assert (Hfin : fetches (finally_steps s) = [])
    by (unfold finally_steps; destruct (fileInput s); reflexivity).
  rewrite !fetches_app, Hfin, app_nil_r.
  destruct Hcases as [(Hf & -> & Hrem) | (Hf & -> & Hrem)]; rewrite Hf; [left | right];
    (split; [reflexivity |]); (split; [reflexivity | exact Hrem]).
Qed.

(** X4.  Once an accepted submit has settled, submitting again without new
    input does nothing: the settled store has an empty question and no
    attachment. *)
Theorem resubmit_is_rejected (w w' : world) (s : store) :
  trim "" = "" ->
  rejects s = false ->
  handleSubmit w' (store_of (handleSubmit w s))
    = (Ok tt, store_of (handleSubmit w s), [EvPreventDefault]).
Proof.
  intros Htrim Hrej.
  destruct (handleSubmit_accepted w s Hrej) as (agent & events & mid & Hrun & _).
  rewrite Hrun. unfold store_of. cbn [fst snd].
  apply handleSubmit_noop. unfold rejects, settled. cbn. rewrite Htrim. reflexivity.
Qed.

(** X5.  A reply whose intent is "reminder" is built from the answer alone:
    whatever the [pages] field holds, even a list starting with [null], the
    reply is built without an exception, its content is the parsed answer
    unchanged and it carries no source image. *)
Theorem reminder_reply_ignores_pages (now : number) (data : value) :
  parse_intent data = Ok (VStr "reminder") ->
  exists answerText msg,
    parse_answer data = Ok answerText
    /\ agent_reply now data = Ok (msg, true)
    /\ content msg = answerText
    /\ sourceImage msg = VNull
    /\ variant msg = VStr "reminder"
    /\ render_row msg
       = (lines <- content_lines answerText ;;
          Ok (mkRowView "chat-row agent reminder" "Mindual" false (LinesBody lines) None))%result.
Proof.
  intros Hintent.
  assert (Hnn : nullish data = false).
  { rewrite parse_intent_eq in Hintent. destruct (nullish data); [discriminate | reflexivity]. }
  pose proof (parse_answer_eq data) as Ha. rewrite Hnn in Ha.
  pose proof (parse_pages_eq data) as Hp. rewrite Hnn in Hp.
  pose proof (agent_reply_eq now data _ _ _ Ha Hintent Hp) as Hreply.
  cbn in Hreply.
  do 2 eexists. split; [exact Ha |]. split; [exact Hreply |].
  repeat split.
  unfold render_row. cbn.
  destruct (content_lines _); reflexivity.
Qed.

(** X6.  A first cited page that is [null] turns a successful reply into the
    apology: for an intent other than "reminder" the first read of the page
    throws, the error is logged and the apology is appended instead of the
    answer, although the request itself succeeded. *)
Theorem null_first_page_apologises (w : world) (s : store) (data intent : value)
    (rest : list value) :
  rejects s = false ->
  replied w data ->
  parse_intent data = Ok intent -> strict_eq_string intent "reminder" = false ->
  parse_pages data = Ok (VNull :: rest) ->
  agent_reply (time_reply w) data = Throw TypeError
  /\ handleSubmit w s =
       (Ok tt, settled s [submitted w s; apology_message (time_reply w)] (calendarEvents s),
        submit_steps w s
          ++ [EvConsoleError TypeError; EvAppendMessage (apology_message (time_reply w))]
          ++ finally_steps s)%list.
Proof.
  intros Hrej (r & Hask & Hok & Hbody) Hintent Hrem Hpages.
  assert (Hnn : nullish data = false).
  { rewrite parse_intent_eq in Hintent. destruct (nullish data); [discriminate | reflexivity]. }
  pose proof (parse_answer_eq data) as Ha. rewrite Hnn in Ha.
  pose proof (agent_reply_eq (time_reply w) data _ _ _ Ha Hintent Hpages) as Hreply.
  rewrite Hrem in Hreply. cbn in Hreply.
  split; [exact Hreply |].
  exact (handleSubmit_reply_throws w s r data _ Hrej Hask Hok Hbody Hreply).
Qed.

(** X7.  An answer that is neither a string nor an array (a number, a
    boolean, an object) has no [includes]: with a first cited page whose
    page number is truthy the reply cannot be built and the apology is
    appended; with a falsy page number the answer is stored as it is, and
    rendering its row throws. *)
Theorem non_text_answer (w : world) (s : store) (data intent answerText firstPage pageNum : value)
    (rest : list value) :
  rejects s = false ->
  replied w data ->
  parse_answer data = Ok answerText ->
  match answerText with VStr _ | VArr _ => False | _ => True end ->
  parse_intent data = Ok intent -> strict_eq_string intent "reminder" = false ->
  parse_pages data = Ok (firstPage :: rest) ->
  page_number firstPage = Ok pageNum ->
  (truthy pageNum = true ->
   exists events tr,
     handleSubmit w s =
       (Ok tt, settled s [submitted w s; apology_message (time_reply w)] events, tr)
     /\ In (EvConsoleError TypeError) tr)
  /\ (truthy pageNum = false ->
      exists agent events tr,
        handleSubmit w s = (Ok tt, settled s [submitted w s; agent] events, tr)
        /\ content agent = answerText
        /\ render_row agent = Throw TypeError).
Proof.
  intros Hrej (r & Hask & Hok & Hbody) Ha Hshape Hintent Hrem Hpages Hpn.
  pose proof (agent_reply_eq (time_reply w) data _ _ _ Ha Hintent Hpages) as Hreply.
  rewrite Hrem, (cite_first_page _ _ _ _ Hpn) in Hreply.
  unfold decorate in Hreply.
  split; intros Htruthy; rewrite Htruthy in Hreply.
  - assert (Hinc : includes answerText citation_marker = Throw TypeError)
      by (destruct answerText; try reflexivity; destruct Hshape).
    rewrite Hinc in Hreply. cbn in Hreply.
    exists (calendarEvents s). eexists.
    split; [exact (handleSubmit_reply_throws w s r data _ Hrej Hask Hok Hbody Hreply) |].
    apply in_or_app. right. now left.
  - cbn [rbind fst snd] in Hreply.
    destruct (handleSubmit_replied w s r data _ _ Hrej Hask Hok Hbody Hreply)
      as (events & refresh & Hrun & _).
    eexists. exists events. eexists. split; [exact Hrun |].
    split; [reflexivity |].
    unfold render_row. cbn.
    destruct answerText; try reflexivity; destruct Hshape.
Qed.

Lemma split_lines_nonempty (s : string) : split_lines s <> [].
Proof.
  induction s as [| c s IH]; cbn [split_lines]; [discriminate |].
  destruct (Ascii.eqb c (ascii_of_nat 10)); [discriminate |].
  destruct (split_lines s); [contradiction | discriminate].
Qed.

Lemma join_lines_cons (l : string) (ls : list string) :
  ls <> [] -> join_lines (l :: ls) = l ++ nl ++ join_lines ls.
Proof. destruct ls; [contradiction | reflexivity]. Qed.

Lemma split_lines_join (s : string) :
  join_lines (split_lines s) = s
  /\ List.length (split_lines s)
     = S (List.length (filter (fun c => Ascii.eqb c (ascii_of_nat 10))
                              (list_ascii_of_string s))).
Proof.
  induction s as [| c s [IHj IHl]]; [split; reflexivity |].
  pose proof (split_lines_nonempty s) as Hne.
  cbn [split_lines list_ascii_of_string filter].
  destruct (Ascii.eqb c (ascii_of_nat 10)) eqn:Hc.
  - apply Ascii.eqb_eq in Hc. subst c. split.
    + rewrite join_lines_cons by exact Hne. rewrite IHj. reflexivity.
    + cbn [List.length]. now rewrite IHl.
  - destruct (split_lines s) as [| l ls] eqn:Hs; [contradiction |]. split.
    + destruct ls as [| l' ls'].
      * cbn in IHj |- *. now rewrite IHj.
      * rewrite join_lines_cons in IHj |- * by discriminate.
        cbn. rewrite <- IHj. reflexivity.
    + exact IHl.
Qed.

(** X8.  The lines a row renders for a string content, joined again with
    line feeds, are the content: no character is lost or added, and there is
    one line more than the content has line feeds (so at least one). *)
Theorem content_lines_roundtrip (s : string) :
  exists lines,
    content_lines (VStr s) = Ok lines
    /\ join_lines lines = s
    /\ List.length lines
       = S (List.length (filter (fun c => Ascii.eqb c (ascii_of_nat 10))
                                (list_ascii_of_string s))).
Proof.
  exists (split_lines s). split; [reflexivity |]. apply split_lines_join.
Qed.

Lemma split_lines_app (a b : string) :
  split_lines (a ++ nl ++ b) = (split_lines a ++ split_lines b)%list.
Proof.
  induction a as [| c a IH]; [reflexivity |].
  change (String c a ++ nl ++ b) with (String c (a ++ nl ++ b)).
  cbn [split_lines]. rewrite IH.
  destruct (Ascii.eqb c (ascii_of_nat 10)); [reflexivity |].
  pose proof (split_lines_nonempty a) as Hne.
  destruct (split_lines a); [contradiction | reflexivity].
Qed.

Lemma split_lines_single (s : string) :
  string_includes s nl = false -> split_lines s = [s].
Proof.
  induction s as [| c s IH]; [reflexivity |].
  intros Hinc. cbn in Hinc. apply orb_false_iff in Hinc. destruct Hinc as [Hpre Hrest].
  cbn [split_lines].
  destruct (Ascii.eqb c (ascii_of_nat 10)) eqn:Hc.
  - apply Ascii.eqb_eq in Hc. subst c. cbn in Hpre.
    destruct s; discriminate Hpre.
  - rewrite (IH Hrest). reflexivity.
Qed.

Lemma prefix_nl (c : ascii) (s : string) :
  String.prefix nl (String c s) = Ascii.eqb c (ascii_of_nat 10).
Proof.
  unfold nl. cbn [String.prefix].
  destruct (ascii_dec (ascii_of_nat 10) c) as [<- | Hne].
  - rewrite Ascii.eqb_refl. now destruct s.
  - symmetry. apply (proj2 (Ascii.eqb_neq _ _)). congruence.
Qed.

Lemma includes_nl_app (a b : string) :
  string_includes (a ++ b) nl = string_includes a nl || string_includes b nl.
Proof.
  induction a as [| c a IH].
  - cbn [append string_includes]. change (String.prefix nl "") with false. reflexivity.
  - change (String c a ++ b) with (String c (a ++ b)).
    cbn [string_includes]. rewrite !prefix_nl, IH. now rewrite orb_assoc.
Qed.

(** X9.  The row of a cited reply ends with a blank line followed by the
    citation as a line of its own: the lines of the content are the lines of
    the answer, an empty line and the citation text (for a page number
    rendered without a line feed). *)
Theorem cited_reply_lines (a p : string) :
  string_includes p nl = false ->
  content_lines (VStr (a ++ citation_line p))
    = Ok (split_lines a ++ [EmptyString; citation_text p])%list.
Proof.
  intros Hp. unfold content_lines. f_equal.
  change (citation_line p) with (nl ++ ("" ++ nl ++ citation_text p)).
  rewrite !split_lines_app. cbn [split_lines app].
  rewrite (split_lines_single (citation_text p)); [reflexivity |].
  unfold citation_text. rewrite !includes_nl_app, Hp. reflexivity.
Qed.

(** X10.  Rows of what the pipeline itself writes always render: the user's
    message (no badge, no source image) and the apology, which looks like any
    knowledge-base reply (badge shown, two lines).  The row of an agent
    message renders exactly when its content is a string and its source image
    is falsy or a string. *)
Theorem rows_render (w : world) (s : store) (now : number) (m : message) :
  (exists body, render_row (submitted w s) = Ok (mkRowView "chat-row user " "나" false body None))
  /\ render_row (apology_message now)
     = Ok (mkRowView "chat-row agent " "Mindual" true
             (LinesBody ["죄송해요, RAG 서버에 연결하는 데 문제가 발생했습니다.";
                         "서버 상태를 확인한 후 다시 시도해 주세요."]) None)
  /\ (msg_role m = Agent ->
      variant m = VUndefined \/ variant m = VStr "reminder" ->
      ((exists v, render_row m = Ok v)
       <-> (exists c, content m = VStr c)
           /\ (truthy (sourceImage m) = false \/ exists u, sourceImage m = VStr u))).
Proof.
  split.
  { unfold render_row, submitted, user_message. cbn.
    destruct (imageFile s), (imagePreviewUrl s) as [u |]; cbn;
      try (eexists; reflexivity).
    destruct (String.eqb u ""); cbn; eexists; reflexivity. }
  split; [reflexivity |].
  intros Hrole Hvariant.
  assert (Hcls : exists cls, to_string (coalesce (variant m) (VStr "")) = Ok cls)
    by (destruct Hvariant as [-> | ->]; eexists; reflexivity).
  destruct Hcls as [cls Hcls].
  unfold render_row, source_image_src. rewrite Hcls, Hrole. cbn [rbind role_eqb andb].
  split.
  - intros [v Hv].
    destruct (content m) as [| | | | c | |]; try discriminate Hv.
    split; [eauto |].
    destruct (truthy (sourceImage m)) eqn:Ht; [right | now left].
    destruct (sourceImage m) as [| | | | u | |]; try discriminate Hv. eauto.
  - intros [[c ->] Hsrc]. cbn [content_lines rbind].
    destruct Hsrc as [-> | [u ->]]; [eexists; reflexivity |].
    cbn. destruct (String.eqb u ""); cbn; [eexists; reflexivity |].
    destruct (String.prefix "data:" u); cbn; [eexists; reflexivity |].
    destruct (String.prefix "http" u); cbn; [eexists; reflexivity |].
    destruct (String.prefix "/" u); eexists; reflexivity.
Qed.

(** X11.  Attaching a file and waiting for its read gives a store with that
    file and its data URL as preview, everything else untouched, and locks
    the attach button; removing the image afterwards drops both again and
    empties the file input, and removing twice is the same as removing
    once. *)
Theorem attach_then_remove (s : store) (f : file) (url : string) :
  let attached := store_of (reader_onloadend (Some url) (store_of (handleFileChange (Some f) s))) in
  let removed := store_of (handleRemoveImage attached) in
  outcome_started (handleFileChange (Some f) s) = Some f
  /\ attached = mkStore (messages s) (question s) (loading s) (Some f) (Some url)
                        (calendarEvents s) (fileInput s)
  /\ attach_disabled attached = true
  /\ removed = mkStore (messages s) (question s) (loading s) None None
                       (calendarEvents s) (option_map (fun _ => "") (fileInput s))
  /\ attach_disabled removed = loading s
  /\ preview_shown removed = false
  /\ store_of (handleRemoveImage removed) = removed
  /\ store_of (handleFileChange None attached)
     = mkStore (messages s) (question s) (loading s) None None
               (calendarEvents s) (fileInput s).
Proof.
  intros attached removed. unfold attached, removed.
  unfold handleRemoveImage, handleFileChange, reader_onloadend, store_of, outcome_started.
  cbn. destruct (fileInput s); cbn; destruct (loading s); repeat split; reflexivity.
Qed.

(** X12.  A read that ends after its image was removed still writes the
    preview: the preview block is shown although no file is attached.  In
    that store a submit with blank text is rejected, and a submit with text
    sends no file and stores no image with the user's message. *)
Theorem stale_read_after_remove (w : world) (s : store) (f : file) (url : string) :
  url <> "" ->
  let stale :=
    store_of (reader_onloadend (Some url)
                (store_of (handleRemoveImage (store_of (handleFileChange (Some f) s))))) in
  imageFile stale = None
  /\ imagePreviewUrl stale = Some url
  /\ preview_shown stale = true
  /\ (trim (question s) = "" -> handleSubmit w stale = (Ok tt, stale, [EvPreventDefault]))
  /\ (trim (question s) <> "" -> loading s = false ->
      ask_request stale = AskRequest (trim (question s)) "5" None
      /\ imageUrl (submitted w stale) = VNull
      /\ In (EvFetch (ask_request stale)) (trace_of (handleSubmit w stale))).
Proof.
  intros Hurl stale.
  assert (Hstale : stale = mkStore (messages s) (question s) (loading s) None (Some url)
                             (calendarEvents s) (option_map (fun _ => "") (fileInput s))).
  { unfold stale, handleRemoveImage, handleFileChange, reader_onloadend, store_of.
    cbn. destruct (fileInput s); reflexivity. }
  rewrite Hstale. cbn [imageFile imagePreviewUrl preview_shown].
  split; [reflexivity |]. split; [reflexivity |].
  split.
  { destruct (String.eqb url "") eqn:He; [| reflexivity].
    apply String.eqb_eq in He. contradiction. }
  split.
  - intros Hblank. apply handleSubmit_noop. unfold rejects. cbn. rewrite Hblank. reflexivity.
  - intros Htext Hidle. split; [reflexivity |]. split; [reflexivity |].
    assert (Hrej : rejects (mkStore (messages s) (question s) (loading s) None (Some url)
                              (calendarEvents s) (option_map (fun _ => "") (fileInput s)))
                   = false).
    { unfold rejects. cbn. rewrite Hidle.
      destruct (String.eqb (trim (question s)) "") eqn:He; [| reflexivity].
      apply String.eqb_eq in He. contradiction. }
    destruct (handleSubmit_accepted w _ Hrej) as (agent & events & mid & Hrun & _).
    rewrite Hrun. unfold trace_of, submit_steps. cbn. tauto.
Qed.

(** X13.  An accepted submit with blank text sends the attached file with an
    empty query and shows the file's name in the user's message; whenever the
    text is not blank the message shows the trimmed text.  The fallback
    without a file name is never produced. *)
Theorem submitted_content (w : world) (s : store) :
  rejects s = false ->
  (trim (question s) <> "" /\ content (submitted w s) = VStr (trim (question s)))
  \/ (trim (question s) = ""
      /\ exists f,
           imageFile s = Some f
           /\ content (submitted w s) = VStr ("(이미지 전송: " ++ file_name f ++ ")")
           /\ ask_request s = AskRequest "" "5" (Some f)
           /\ imageUrl (submitted w s)
              = match imagePreviewUrl s with Some u => VStr u | None => VNull end).
Proof.
  unfold rejects, submitted, user_message, ask_request. intros Hrej.
  apply orb_false_iff in Hrej. destruct Hrej as [Hguard _].
  destruct (String.eqb (trim (question s)) "") eqn:He.
  - apply String.eqb_eq in He. right. split; [exact He |].
    destruct (imageFile s) as [f |]; [| discriminate Hguard].
    exists f. rewrite He. repeat split.
  - left. split; [| reflexivity].
    intros Heq. rewrite Heq in He. discriminate He.
Qed.

(** X14.  A key press submits exactly when the key is Enter without Shift:
    then the default is prevented and the run continues as a submit of the
    same render; any other key, and Shift+Enter, leaves the store alone and
    prevents nothing. *)
Theorem key_press (w : world) (s : store) (key : string) (shiftKey : bool) :
  (key = "Enter" /\ shiftKey = false
   /\ outcome_of_run (handleKeyDown w key shiftKey s) = outcome_of_run (handleSubmit w s)
   /\ store_of (handleKeyDown w key shiftKey s) = store_of (handleSubmit w s)
   /\ trace_of (handleKeyDown w key shiftKey s)
      = EvPreventDefault :: trace_of (handleSubmit w s))
  \/ ((key <> "Enter" \/ shiftKey = true)
      /\ handleKeyDown w key shiftKey s = (Ok tt, s, [])).
Proof.
  unfold handleKeyDown, handleKeyDown_closure, handleSubmit.
  destruct (String.eqb key "Enter") eqn:Hk.
  - apply String.eqb_eq in Hk. destruct shiftKey; cbn [negb andb].
    + right. split; [now right | reflexivity].
    + left. split; [exact Hk |]. split; [reflexivity |].
      unfold bind, emit, outcome_of_run, store_of, trace_of.
      destruct (handleSubmit_closure w s s) as [[[u | e] s'] tr]; repeat split.
  - right. split; [| reflexivity]. left.
    intros Heq. rewrite Heq in Hk. discriminate Hk.
Qed.

Lemma firstn_app_le {A} (n : nat) (l1 l2 : list A) :
  (n <= List.length l1)%nat -> firstn n (l1 ++ l2)%list = firstn n l1.
Proof.
  intros Hle. rewrite firstn_app.
  replace (n - List.length l1)%nat with 0%nat by lia.
  now rewrite firstn_O, app_nil_r.
Qed.

(** X15.  While an accepted submit is in flight, from the step that raises
    the loading flag up to the [finally] block, the flag stays up: the
    thinking row is the last row, the header says "Thinking...", and both
    buttons are disabled.  When the run has ended the flag is down and no
    thinking row is left. *)
Theorem in_flight_controls (w : world) (s : store) (n : nat) :
  rejects s = false ->
  let tr := trace_of (handleSubmit w s) in
  (4 <= n <= List.length tr - List.length (finally_steps s))%nat ->
  let during := replay (firstn n tr) s in
  loading during = true
  /\ header_tag during = "Thinking..."
  /\ submit_disabled during = true
  /\ attach_disabled during = true
  /\ chat_rows during = (map MessageRow (messages during) ++ [ThinkingRow])%list
  /\ loading (store_of (handleSubmit w s)) = false
  /\ ~ In ThinkingRow (chat_rows (store_of (handleSubmit w s))).
Proof.
  intros Hrej tr Hn during.
  destruct (handleSubmit_accepted w s Hrej)
    as (agent & events & mid & Hrun & _ & _ & Hquiet & _).
  assert (Hloading : loading during = true).
  { unfold during, tr in *. rewrite Hrun in *. unfold trace_of in *. cbn [snd] in *.
    rewrite !length_app in Hn.
    rewrite app_assoc, firstn_app_le by (rewrite length_app; lia).
    set (pre := [EvPreventDefault; EvAppendMessage (submitted w s); EvSetQuestion "";
                 EvSetLoading true]).
    set (post := [EvSetImagePreviewUrl None; EvFetch (ask_request s);
                  EvSettled (ask_request s)]).
    change (submit_steps w s) with (pre ++ post)%list. rewrite <- app_assoc.
    rewrite firstn_app, (firstn_all2 pre) by (cbn; lia).
    rewrite replay_app, replay_loading; [reflexivity |].
    apply forallb_firstn. rewrite forallb_app, Hquiet. reflexivity. }
  split; [exact Hloading |].
  unfold header_tag, submit_disabled, attach_disabled, chat_rows. rewrite Hloading.
  repeat split.
  - rewrite Hrun. reflexivity.
  - rewrite Hrun. unfold store_of, settled. cbn.
    rewrite app_nil_r. intros Hin. apply in_map_iff in Hin.
    destruct Hin as (m & Hm & _). discriminate.
Qed.

(** X16.  The empty-chat hint is gone for good as soon as an accepted submit
    has appended the user's message: it is shown at no later point of the
    run, nor in the store the run ends in. *)
Theorem hint_gone_after_submit (w : world) (s : store) (n : nat) :
  rejects s = false ->
  (2 <= n)%nat ->
  empty_hint_shown (replay (firstn n (trace_of (handleSubmit w s))) s) = false
  /\ empty_hint_shown (store_of (handleSubmit w s)) = false.
Proof.
  intros Hrej Hn.
  destruct (handleSubmit_accepted w s Hrej) as (agent & events & mid & Hrun & _).
  rewrite Hrun. unfold trace_of, store_of. cbn [fst snd]. split.
  - unfold empty_hint_shown. rewrite replay_messages.
    assert (Happ : exists rest,
              appended (firstn n (submit_steps w s ++ mid ++ finally_steps s)%list)
              = submitted w s :: rest).
    { destruct n as [| [| n]]; try lia. unfold submit_steps.
      cbn [app firstn appended]. eexists. reflexivity. }
    destruct Happ as [rest ->].
    rewrite length_app. cbn [List.length]. rewrite Nat.add_succ_r. reflexivity.
  - unfold empty_hint_shown, settled. cbn [messages]. rewrite length_app.
    cbn [List.length]. rewrite Nat.add_succ_r. reflexivity.
Qed.

(** *** The grid of the reference date *)

(** The reference date has the civil fields of some date the constructor
    does not reinterpret, and its grid is padding, that month's day cells,
    padding. *)
Lemma today_grid (y m d : Z) :
  0 <= m < 12 -> 1 <= d <= JsDate.days_in_month y m ->
  let t := Calendar.today (JsDate.days_from_civil y m d) in
  exists ty tm td lead trail,
    JsDate.civil_from_days t = (ty, tm, td)
    /\ 0 <= tm < 12 /\ 1 <= td <= JsDate.days_in_month ty tm
    /\ (lead < 7)%nat /\ (trail < 7)%nat
    /\ Calendar.cells (Calendar.make_calendar t)
       = (repeat None lead ++ month_cells ty tm td ++ repeat None trail)%list
    /\ ((lead + Z.to_nat (JsDate.days_in_month ty tm) + trail) mod 7 = 0)%nat
    /\ Calendar.month_label (Calendar.make_calendar t)
       = string_of_Z ty ++ "년 " ++ string_of_Z (tm + 1) ++ "월".
Proof.
  intros Hm Hd t.
  destruct (today_civil y m d Hm Hd) as (ty & tm & td & Hy' & Hm' & Hd' & Ht & _).
  assert (Hciv : JsDate.civil_from_days t = (ty, tm, td)).
  { unfold t. rewrite Ht. now apply civil_roundtrip. }
  exists ty, tm, td.
  exists (Z.to_nat (JsDate.getDay (JsDate.days_from_civil ty tm 1))).
  eexists.
  split; [exact Hciv |]. split; [exact Hm' |]. split; [exact Hd' |].
  assert (Hday : 0 <= JsDate.getDay (JsDate.days_from_civil ty tm 1) < 7)
    by (unfold JsDate.getDay; apply Z.mod_pos_bound; lia).
  split; [lia |]. split; [apply week_deficit_lt |].
  assert (Hcells : Calendar.cells (Calendar.make_calendar t) = _)
    by (unfold t; rewrite Ht; now apply make_calendar_civil).
  rewrite pad_week_eq in Hcells.
  split; [rewrite Hcells, <- app_assoc; reflexivity |].
  split.
  { rewrite length_app, repeat_length. unfold month_cells.
    rewrite length_map, Zrange_length. apply week_deficit_fills. }
  unfold Calendar.make_calendar, JsDate.getFullYear, JsDate.getMonth.
  cbv zeta. cbn [Calendar.month_label]. rewrite Hciv. reflexivity.
Qed.

Lemma filter_repeat_none (k : nat) :
  filter is_today_cell (repeat None k) = [].
Proof. induction k; [reflexivity | exact IHk]. Qed.

Lemma today_in_range (y m td lo : Z) (n : nat) :
  filter is_today_cell
    (map (fun day => Some (Calendar.mkCell (date_key y m day) day (day =? td))) (Zrange lo n))
  = if (lo <=? td) && (td <? lo + Z.of_nat n)
    then [Some (Calendar.mkCell (date_key y m td) td true)] else [].
Proof.
  revert lo. induction n as [| n IH]; intros lo.
  - cbn. destruct (lo <=? td) eqn:Hlo; [| reflexivity].
    cbn. replace (td <? lo + 0) with false; [reflexivity |].
    symmetry. apply Z.ltb_ge. apply Z.leb_le in Hlo. lia.
  - cbn [Zrange map filter is_today_cell Calendar.isToday]. rewrite IH.
    destruct (Z.eq_dec lo td) as [-> | Hne].
    + rewrite Z.eqb_refl.
      replace ((td + 1 <=? td) && (td <? td + 1 + Z.of_nat n)) with false
        by (symmetry; apply andb_false_iff; left; apply Z.leb_gt; lia).
      replace ((td <=? td) && (td <? td + Z.of_nat (S n))) with true
        by (symmetry; apply andb_true_iff; split; [apply Z.leb_le | apply Z.ltb_lt]; lia).
      reflexivity.
    + replace (lo =? td) with false by (symmetry; apply Z.eqb_neq; exact Hne).
      replace ((lo + 1 <=? td) && (td <? lo + 1 + Z.of_nat n))
        with ((lo <=? td) && (td <? lo + Z.of_nat (S n))); [reflexivity |].
      destruct (lo <=? td) eqn:H1, (lo + 1 <=? td) eqn:H2,
        (td <? lo + Z.of_nat (S n)) eqn:H3, (td <? lo + 1 + Z.of_nat n) eqn:H4;
        try reflexivity; exfalso;
        repeat match goal with
               | Hb : (_ <=? _) = true |- _ => apply Z.leb_le in Hb
               | Hb : (_ <=? _) = false |- _ => apply Z.leb_gt in Hb
               | Hb : (_ <? _) = true |- _ => apply Z.ltb_lt in Hb
               | Hb : (_ <? _) = false |- _ => apply Z.ltb_ge in Hb
               end; lia.
Qed.

(** X17.  Exactly one cell of the grid is marked as today: the cell of the
    reference date itself, which sits right after the leading padding at the
    position of its day number. *)
Theorem one_today_cell (y m d : Z) :
  0 <= m < 12 -> 1 <= d <= JsDate.days_in_month y m ->
  let t := Calendar.today (JsDate.days_from_civil y m d) in
  let grid := Calendar.cells (Calendar.make_calendar t) in
  let lead := Z.to_nat (JsDate.getDay (JsDate.make (JsDate.getFullYear t) (JsDate.getMonth t) 1)) in
  let today_cell :=
    Some (Calendar.mkCell
            (date_key (JsDate.getFullYear t) (JsDate.getMonth t) (JsDate.getDate t))
            (JsDate.getDate t) true) in
  filter is_today_cell grid = [today_cell]
  /\ nth_error grid (lead + Z.to_nat (JsDate.getDate t) - 1) = Some today_cell.
Proof.
  intros Hm Hd t grid lead today_cell.
  destruct (today_civil y m d Hm Hd) as (ty & tm & td & Hy' & Hm' & Hd' & Ht & _).
  assert (Hciv : JsDate.civil_from_days t = (ty, tm, td)).
  { unfold t. rewrite Ht. now apply civil_roundtrip. }
  assert (Hcells : grid = _)
    by (unfold grid, t; rewrite Ht; now apply make_calendar_civil).
  rewrite pad_week_eq in Hcells.
  unfold today_cell, lead, JsDate.getFullYear, JsDate.getMonth, JsDate.getDate.
  rewrite Hciv. cbn [fst snd]. rewrite (make_civil ty tm 1 Hy' Hm').
  pose proof (days_in_month_bounds ty tm) as Hn.
  split.
  - rewrite Hcells, !filter_app, !filter_repeat_none, app_nil_r. cbn [app].
    rewrite today_in_range.
    replace ((1 <=? td) && (td <? 1 + Z.of_nat (Z.to_nat (JsDate.days_in_month ty tm))))
      with true; [reflexivity |].
    symmetry. apply andb_true_iff. split; [apply Z.leb_le | apply Z.ltb_lt]; lia.
  - rewrite Hcells, <- app_assoc.
    rewrite nth_error_app2 by (rewrite repeat_length; lia).
    rewrite repeat_length.
    rewrite nth_error_app1 by (rewrite length_map, Zrange_length; lia).
    replace (Z.to_nat (JsDate.getDay (JsDate.days_from_civil ty tm 1)) + Z.to_nat td - 1
             - Z.to_nat (JsDate.getDay (JsDate.days_from_civil ty tm 1)))%nat
      with (Z.to_nat (td - 1)) by lia.
    rewrite nth_error_map.
    assert (Hnth : forall (k : nat) lo len, (k < len)%nat ->
              nth_error (Zrange lo len) k = Some (lo + Z.of_nat k)).
    { intros k lo len. revert k lo. induction len as [| len IH]; intros k lo Hk; [lia |].
      destruct k as [| k]; cbn [Zrange nth_error]; [f_equal; lia |].
      rewrite IH by lia. f_equal. lia. }
    rewrite Hnth by lia. cbn [option_map].
    replace (1 + Z.of_nat (Z.to_nat (td - 1))) with td by lia.
    now rewrite Z.eqb_refl.
Qed.

(** X18.  The grid has four, five or six full weeks, 28, 35 or 42 cells,
    and the month label names the reference date's year and its month
    counted from 1. *)
Theorem grid_weeks_and_label (y m d : Z) :
  0 <= m < 12 -> 1 <= d <= JsDate.days_in_month y m ->
  let t := Calendar.today (JsDate.days_from_civil y m d) in
  let cal := Calendar.make_calendar t in
  (List.length (Calendar.cells cal) = 28 \/ List.length (Calendar.cells cal) = 35
   \/ List.length (Calendar.cells cal) = 42)%nat
  /\ Calendar.month_label cal
     = string_of_Z (JsDate.getFullYear t) ++ "년 " ++ string_of_Z (JsDate.getMonth t + 1) ++ "월"
  /\ 1 <= JsDate.getMonth t + 1 <= 12.
Proof.
  intros Hm Hd t cal.
  destruct (today_grid y m d Hm Hd)
    as (ty & tm & td & lead & trail & Hciv & Hm' & Hd' & Hlead & Htrail & Hcells & Hmod & Hlabel).
  fold t in Hciv, Hcells, Hlabel. fold cal in Hcells, Hlabel.
  pose proof (days_in_month_bounds ty tm) as Hn.
  unfold JsDate.getFullYear, JsDate.getMonth. rewrite Hciv. cbn [fst snd].
  split; [| split; [exact Hlabel | lia]].
  rewrite Hcells, !length_app, !repeat_length. unfold month_cells.
  rewrite length_map, Zrange_length.
  set (n := Z.to_nat (JsDate.days_in_month ty tm)) in *.
  assert (Hn' : (28 <= n <= 31)%nat) by (unfold n; lia).
  rewrite Nat.add_assoc.
  pose proof (Nat.div_mod_eq (lead + n + trail) 7) as Hdiv.
  rewrite Hmod in Hdiv. lia.
Qed.

(** *** Events on the grid *)

Lemma filter_events_ok (key : string) (items : list value) :
  forallb non_nullish items = true ->
  filter_events key items = Ok (filter (dated key) items).
Proof.
  induction items as [| ev items IH]; [reflexivity |].
  cbn [forallb]. intros Hall. apply andb_prop in Hall. destruct Hall as [Hev Hrest].
  cbn [filter_events filter]. unfold get_prop, dated in *.
  unfold non_nullish in Hev. apply negb_true_iff in Hev. rewrite Hev.
  cbn [rbind]. rewrite (IH Hrest). reflexivity.
Qed.

Lemma filter_events_null (key : string) (items : list value) :
  forallb non_nullish items = false ->
  filter_events key items = Throw TypeError.
Proof.
  induction items as [| ev items IH]; [discriminate |].
  cbn [forallb filter_events]. unfold get_prop, non_nullish at 1.
  destruct (nullish ev); [reflexivity |]. cbn [negb andb rbind].
  intros Hrest. rewrite (IH Hrest). reflexivity.
Qed.

Lemma some_kept (f : value -> bool) (items : list value) :
  negb (Nat.eqb (List.length (filter f items)) 0) = existsb f items.
Proof.
  induction items as [| ev items IH]; [reflexivity |].
  cbn [filter existsb]. destruct (f ev); [reflexivity | exact IH].
Qed.

Lemma render_cells_app (events : value) (i : nat) (a b : list (option Calendar.cell)) :
  render_cells events i (a ++ b)%list =
    (x <- render_cells events i a ;;
     y <- render_cells events (i + List.length a) b ;;
     Ok (x ++ y)%list)%result.
Proof.
  revert i. induction a as [| c a IH]; intros i.
  - cbn. rewrite Nat.add_0_r. now destruct (render_cells events i b).
  - cbn [app render_cells List.length]. destruct (render_cell events i c); [| reflexivity].
    cbn [rbind]. rewrite IH, Nat.add_succ_r. cbn [Nat.add].
    destruct (render_cells events (S i) a); [| reflexivity]. cbn [rbind].
    now destruct (render_cells events (S (i + List.length a)) b).
Qed.

Lemma render_cells_padding (events : value) (i k : nat) :
  render_cells events i (repeat None k) = Ok (map EmptyCell (seq i k)).
Proof.
  revert i. induction k as [| k IH]; intros i; [reflexivity |].
  cbn [repeat render_cells render_cell rbind seq map]. now rewrite IH.
Qed.

Lemma render_cells_days (items : list value) (y m td : Z) (i : nat) (lo : Z) (n : nat) :
  forallb non_nullish items = true ->
  render_cells (VArr items) i
    (map (fun day => Some (Calendar.mkCell (date_key y m day) day (day =? td))) (Zrange lo n))
  = Ok (map (fun day =>
               DayCell (date_key y m day) day (day =? td)
                       (existsb (dated (date_key y m day)) items))
            (Zrange lo n)).
Proof.
  intros Hall. revert i lo. induction n as [| n IH]; intros i lo; [reflexivity |].
  cbn [Zrange map render_cells render_cell daily_events Calendar.key Calendar.label
       Calendar.isToday].
  rewrite (filter_events_ok _ _ Hall). cbn [rbind]. rewrite IH, some_kept. reflexivity.
Qed.

Lemma render_cells_days_throw (events : value) (y m td : Z) (i : nat) (lo : Z) (n : nat) :
  (forall key, daily_events events key = Throw TypeError) ->
  render_cells events i
    (map (fun day => Some (Calendar.mkCell (date_key y m day) day (day =? td)))
         (Zrange lo (S n)))
  = Throw TypeError.
Proof.
  intros Hthrow. cbn [Zrange map render_cells render_cell Calendar.key].
  now rewrite Hthrow.
Qed.

Lemma append_cancel (a b c : string) : a ++ b = a ++ c -> b = c.
Proof.
  induction a as [| x a IH]; cbn; [trivial |].
  intros Heq. injection Heq as Heq. now apply IH.
Qed.

Lemma digit_inj (a b : Z) : 0 <= a <= 9 -> 0 <= b <= 9 -> digit a = digit b -> a = b.
Proof.
  unfold digit. intros Ha Hb Heq. apply (f_equal nat_of_ascii) in Heq.
  rewrite !nat_ascii_embedding in Heq by lia. lia.
Qed.

Lemma date_key_inj (y m d1 d2 : Z) :
  1 <= d1 <= 31 -> 1 <= d2 <= 31 ->
  date_key y m d1 = date_key y m d2 -> d1 = d2.
Proof.
  intros H1 H2. unfold date_key. intros Heq.
  do 4 apply append_cancel in Heq. unfold two_digits in Heq.
  injection Heq as Htens Hunits.
  apply digit_inj in Htens;
    [| split; [apply Z.div_pos | apply Z.div_le_upper_bound]; lia
     | split; [apply Z.div_pos | apply Z.div_le_upper_bound]; lia].
  apply digit_inj in Hunits;
    [| pose proof (Z.mod_pos_bound d1 10); lia | pose proof (Z.mod_pos_bound d2 10); lia].
  pose proof (Z.div_mod d1 10). pose proof (Z.div_mod d2 10). lia.
Qed.

Lemma Zrange_bounds (lo : Z) (n : nat) (x : Z) :
  In x (Zrange lo n) -> lo <= x < lo + Z.of_nat n.
Proof.
  revert lo. induction n as [| n IH]; intros lo; [intros [] |].
  cbn [Zrange]. intros [<- | Hin]; [lia |]. apply IH in Hin. lia.
Qed.

Lemma NoDup_Zrange (lo : Z) (n : nat) : NoDup (Zrange lo n).
Proof.
  revert lo. induction n as [| n IH]; intros lo; [constructor |].
  cbn [Zrange]. constructor; [| apply IH].
  intros Hin. apply Zrange_bounds in Hin. lia.
Qed.

Lemma cell_keys_app (xs ys : list (option Calendar.cell)) :
  cell_keys (xs ++ ys) = (cell_keys xs ++ cell_keys ys)%list.
Proof. apply flat_map_app. Qed.

Lemma cell_keys_padding (n : nat) : cell_keys (repeat None n) = [].
Proof. induction n as [| n IH]; [reflexivity | exact IH]. Qed.

Lemma cell_keys_month (y m td : Z) :
  cell_keys (month_cells y m td)
  = map (date_key y m) (Zrange 1 (Z.to_nat (JsDate.days_in_month y m))).
Proof.
  unfold month_cells. generalize 1.
  induction (Z.to_nat (JsDate.days_in_month y m)) as [| n IH]; intros lo;
    [reflexivity |].
  cbn [Zrange map cell_keys flat_map Calendar.key app]. f_equal. apply IH.
Qed.

Lemma dated_key (key : string) (ev : value) :
  dated key ev = true -> field ev "date" = VStr key.
Proof.
  unfold dated. destruct (field ev "date"); try discriminate.
  cbn [strict_eq_string]. intros Heq. apply String.eqb_eq in Heq. now subst.
Qed.

Lemma marked_by_none (ev : value) (cs : list (option Calendar.cell)) :
  (forall key, In key (cell_keys cs) -> dated key ev = false) ->
  marked_by ev cs = [].
Proof.
  induction cs as [| [cell |] cs IH]; intros Hnone; [reflexivity | |].
  - cbn [marked_by flat_map]. rewrite (Hnone (Calendar.key cell)) by now left.
    apply IH. intros key Hin. apply Hnone. now right.
  - apply IH. exact Hnone.
Qed.

Lemma marked_by_at_most_one (ev : value) (cs : list (option Calendar.cell)) :
  NoDup (cell_keys cs) -> (List.length (marked_by ev cs) <= 1)%nat.
Proof.
  induction cs as [| [cell |] cs IH]; intros Hnodup; [cbn; lia | |].
  - cbn [cell_keys flat_map app] in Hnodup. apply NoDup_cons_iff in Hnodup.
    destruct Hnodup as [Hfresh Hnodup].
    cbn [marked_by flat_map].
    destruct (dated (Calendar.key cell) ev) eqn:Hdated; [| now apply IH].
    fold (marked_by ev cs). rewrite marked_by_none; [cbn; lia |].
    intros key Hin. destruct (dated key ev) eqn:Hkey; [| reflexivity].
    apply dated_key in Hdated. apply dated_key in Hkey.
    rewrite Hdated in Hkey. injection Hkey as <-. contradiction.
  - apply IH. exact Hnodup.
Qed.

(** X19.  The day cells of the grid have pairwise different keys: over the
    days of the reference month [formatISODate] of [new Date(year,
    monthIndex, day)] is one-to-one, so the keys of the grid's cells have no
    duplicate and the filter of line 479 keeps an event for at most one
    cell. *)
Theorem cell_keys_distinct (y m d : Z) (ev : value) :
  0 <= m < 12 -> 1 <= d <= JsDate.days_in_month y m ->
  let t := Calendar.today (JsDate.days_from_civil y m d) in
  let ty := JsDate.getFullYear t in
  let tm := JsDate.getMonth t in
  let grid := Calendar.cells (Calendar.make_calendar t) in
  (forall d1 d2,
     1 <= d1 <= JsDate.days_in_month ty tm -> 1 <= d2 <= JsDate.days_in_month ty tm ->
     Calendar.formatISODate (JsDate.make ty tm d1)
     = Calendar.formatISODate (JsDate.make ty tm d2) ->
     d1 = d2)
  /\ cell_keys grid
     = map (fun day => Calendar.formatISODate (JsDate.make ty tm day))
           (Zrange 1 (Z.to_nat (JsDate.days_in_month ty tm)))
  /\ NoDup (cell_keys grid)
  /\ (List.length (marked_by ev grid) <= 1)%nat.
Proof.
  intros Hm Hd t ty tm grid.
  destruct (today_civil y m d Hm Hd) as (y' & m' & d' & Hy' & Hm' & Hd' & Ht & _).
  assert (Hciv : JsDate.civil_from_days t = (y', m', d')).
  { unfold t. rewrite Ht. now apply civil_roundtrip. }
  assert (Hty : ty = y') by (unfold ty, JsDate.getFullYear; now rewrite Hciv).
  assert (Htm : tm = m') by (unfold tm, JsDate.getMonth; now rewrite Hciv).
  pose proof (days_in_month_bounds y' m') as Hn.
  assert (Hfmt : forall day, 1 <= day <= JsDate.days_in_month y' m' ->
            Calendar.formatISODate (JsDate.make y' m' day) = date_key y' m' day).
  { intros day Hday. rewrite (make_civil y' m' day Hy' Hm').
    now apply formatISODate_civil. }
  assert (Hkeys : cell_keys grid
                  = map (date_key y' m')
                        (Zrange 1 (Z.to_nat (JsDate.days_in_month y' m')))).
  { unfold grid, t. rewrite Ht.
    rewrite (make_calendar_civil y' m' d' Hy' Hm' Hd').
    fold (month_cells y' m' d').
    rewrite pad_week_eq, !cell_keys_app, !cell_keys_padding, cell_keys_month.
    cbn [app]. apply app_nil_r. }
  assert (Hnodup : NoDup (cell_keys grid)).
  { rewrite Hkeys. apply NoDup_map_NoDup_ForallPairs; [| apply NoDup_Zrange].
    intros d1 d2 H1 H2 Heq. apply Zrange_bounds in H1, H2.
    apply (date_key_inj y' m'); [lia | lia | exact Heq]. }
  rewrite Hty, Htm.
  split; [| split; [| split]].
  - intros d1 d2 H1 H2. rewrite !Hfmt by assumption.
    apply date_key_inj; lia.
  - rewrite Hkeys. apply map_ext_in. intros day Hin.
    apply Zrange_bounds in Hin. symmetry. apply Hfmt. lia.
  - exact Hnodup.
  - apply marked_by_at_most_one. exact Hnodup.
Qed.

(** X20.  With an event list of objects, the grid renders as its cells: the
    padding cells keyed by their positions, and each day cell with its key,
    day number and today flag, carrying the event dot exactly when some
    event's [date] equals the cell's key.  With no events no cell has a
    dot. *)
Theorem grid_marks_event_days (y m d : Z) (s : store) (items : list value) :
  0 <= m < 12 -> 1 <= d <= JsDate.days_in_month y m ->
  forallb non_nullish items = true ->
  let t := Calendar.today (JsDate.days_from_civil y m d) in
  let ty := JsDate.getFullYear t in
  let tm := JsDate.getMonth t in
  let n := Z.to_nat (JsDate.days_in_month ty tm) in
  exists lead trail,
    Calendar.cells (Calendar.make_calendar t)
    = (repeat None lead ++ month_cells ty tm (JsDate.getDate t) ++ repeat None trail)%list
    /\ render_grid (Calendar.make_calendar t) (with_events s (VArr items))
       = Ok (map EmptyCell (seq 0 lead)
             ++ map (fun day =>
                       DayCell (date_key ty tm day) day (day =? JsDate.getDate t)
                               (existsb (dated (date_key ty tm day)) items))
                    (Zrange 1 n)
             ++ map EmptyCell (seq (lead + n) trail))%list
    /\ (items = [] ->
        forall key label today marked,
          In (DayCell key label today marked)
             (match render_grid (Calendar.make_calendar t) (with_events s (VArr items)) with
              | Ok views => views
              | Throw _ => []
              end) ->
          marked = false).
Proof.
  intros Hm Hd Hall t ty tm n.
  destruct (today_grid y m d Hm Hd)
    as (ty' & tm' & td & lead & trail & Hciv & _ & _ & _ & _ & Hcells & _).
  fold t in Hciv, Hcells.
  unfold n, ty, tm, JsDate.getFullYear, JsDate.getMonth, JsDate.getDate.
  rewrite Hciv. cbn [fst snd].
  exists lead, trail. split; [exact Hcells |].
  assert (Hrender :
    render_grid (Calendar.make_calendar t) (with_events s (VArr items))
    = Ok (map EmptyCell (seq 0 lead)
          ++ map (fun day =>
                    DayCell (date_key ty' tm' day) day (day =? td)
                            (existsb (dated (date_key ty' tm' day)) items))
                 (Zrange 1 (Z.to_nat (JsDate.days_in_month ty' tm')))
          ++ map EmptyCell (seq (lead + Z.to_nat (JsDate.days_in_month ty' tm')) trail))%list).
  { unfold render_grid. rewrite Hcells. cbn [with_events calendarEvents].
    rewrite render_cells_app, render_cells_padding. cbn [rbind].
    rewrite render_cells_app. unfold month_cells at 1.
    rewrite (render_cells_days _ _ _ _ _ _ _ Hall). cbn [rbind].
    rewrite render_cells_padding. cbn [rbind].
    rewrite repeat_length. unfold month_cells.
    rewrite length_map, Zrange_length. reflexivity. }
  split; [exact Hrender |].
  intros -> key label today marked. rewrite Hrender.
  intros Hin. apply in_app_or in Hin. destruct Hin as [Hin | Hin].
  - apply in_map_iff in Hin. destruct Hin as (i & Hi & _). discriminate.
  - apply in_app_or in Hin. destruct Hin as [Hin | Hin].
    + apply in_map_iff in Hin. destruct Hin as (day & Hday & _).
      now injection Hday as _ _ _ <-.
    + apply in_map_iff in Hin. destruct Hin as (i & Hi & _). discriminate.
Qed.

(** X21.  The grid of the reference date renders exactly when the stored
    event list is an array none of whose elements is [null]; anything else the
    calendar endpoint got stored (a text, a number, an object, an array with
    a [null] in it) makes the render throw.  After an event fetch that is the
    value the endpoint's [events] field held, and the empty list after a
    failure, with which the grid always renders. *)
Theorem grid_renders_iff (y m d : Z) (w : world) (s : store) :
  0 <= m < 12 -> 1 <= d <= JsDate.days_in_month y m ->
  let cal := Calendar.make_calendar (Calendar.today (JsDate.days_from_civil y m d)) in
  ((exists views, render_grid cal s = Ok views)
   <-> exists items, calendarEvents s = VArr items /\ forallb non_nullish items = true)
  /\ ((forall views, render_grid cal s <> Ok views) -> render_grid cal s = Throw TypeError)
  /\ calendarEvents (store_of (fetchEvents w s)) = fetched_events (cal_outcome w)
  /\ (fetch_failed (cal_outcome w) = true ->
      exists views, render_grid cal (store_of (fetchEvents w s)) = Ok views).
Proof.
  intros Hm Hd cal.
  destruct (today_grid y m d Hm Hd)
    as (ty & tm & td & lead & trail & _ & _ & _ & _ & _ & Hcells & _).
  fold cal in Hcells.
  pose proof (days_in_month_bounds ty tm) as Hn.
  assert (Hdays : exists k, Z.to_nat (JsDate.days_in_month ty tm) = S k)
    by (exists (Z.to_nat (JsDate.days_in_month ty tm) - 1)%nat; lia).
  destruct Hdays as [k Hk].
  assert (Hthrow : forall events,
            (forall key, daily_events events key = Throw TypeError) ->
            render_cells events 0 (Calendar.cells cal) = Throw TypeError).
  { intros events Hev. rewrite Hcells, render_cells_app, render_cells_padding.
    cbn [rbind]. rewrite render_cells_app. unfold month_cells. rewrite Hk.
    now rewrite (render_cells_days_throw _ _ _ _ _ _ _ Hev). }
  assert (Hok : forall items, forallb non_nullish items = true ->
            exists views, render_cells (VArr items) 0 (Calendar.cells cal) = Ok views).
  { intros items Hall. rewrite Hcells, render_cells_app, render_cells_padding.
    cbn [rbind]. rewrite render_cells_app. unfold month_cells at 1.
    rewrite (render_cells_days _ _ _ _ _ _ _ Hall). cbn [rbind].
    rewrite render_cells_padding. cbn [rbind]. eexists. reflexivity. }
  assert (Hcases : (exists items, calendarEvents s = VArr items
                                  /\ forallb non_nullish items = true)
                   \/ render_grid cal s = Throw TypeError).
  { unfold render_grid.
    destruct (calendarEvents s) as [| | | | | items |] eqn:Hev;
      try (right; apply Hthrow; reflexivity).
    destruct (forallb non_nullish items) eqn:Hall; [left; eauto |].
    right. apply Hthrow. intros key. cbn. now apply filter_events_null. }
  split.
  { split.
    - intros [views Hv]. destruct Hcases as [Hitems | Hfail]; [exact Hitems |].
      rewrite Hfail in Hv. discriminate.
    - intros (items & Hev & Hall). unfold render_grid. rewrite Hev. now apply Hok. }
  split.
  { intros Hno. destruct Hcases as [(items & Hev & Hall) | Hfail]; [| exact Hfail].
    exfalso. unfold render_grid in Hno. rewrite Hev in Hno.
    destruct (Hok items Hall) as [views Hv]. exact (Hno views Hv). }
  destruct (fetchEvents_stores w s) as (inner & Hrun & _).
  rewrite Hrun. unfold store_of. cbn [fst snd with_events calendarEvents].
  split; [reflexivity |].
  intros Hfail. unfold render_grid. cbn [calendarEvents].
  assert (Hempty : fetched_events (cal_outcome w) = VArr []).
  { unfold fetched_events. destruct (cal_outcome w) as [| [okay st [b |]]];
      cbn in Hfail |- *; try reflexivity; destruct okay; try reflexivity; discriminate. }
  rewrite Hempty. now apply Hok.
Qed.
End MoreFacts.

(** * Sample runs of the other properties *)


Lemma accepted_submit_requests_witness :
  rejects sample_store = false
  /\ (fetches (trace_of (handleSubmit
                 (sample_world (reply_with body_reminder) (reply_with body_events))
                 sample_store))
      = [ask_request sample_store; calendar_request]
      \/ fetches (trace_of (handleSubmit
                    (sample_world (reply_with body_reminder) (reply_with body_events))
                    sample_store))
         = [ask_request sample_store]).
Proof.
  split; [reflexivity |].
  destruct (@accepted_submit_requests ZHost
              (sample_world (reply_with body_reminder) (reply_with body_events))
              sample_store eq_refl)
    as [(Hf & _) | (Hf & _)]; [left | right]; exact Hf.
Defined.

Lemma resubmit_is_rejected_witness :
  @trim ZHost "" = ""
  /\ rejects sample_store = false
  /\ handleSubmit (sample_world server_error Rejected)
       (store_of (handleSubmit (sample_world (reply_with body_cited) Rejected) sample_store))
     = (Ok tt,
        store_of (handleSubmit (sample_world (reply_with body_cited) Rejected) sample_store),
        [EvPreventDefault]).
Proof.
  split; [reflexivity |]. split; [reflexivity |].
  exact (@resubmit_is_rejected ZHost (sample_world (reply_with body_cited) Rejected)
           (sample_world server_error Rejected) sample_store eq_refl eq_refl).
Defined.

Lemma reminder_reply_ignores_pages_witness :
  parse_intent body_reminder = Ok (VStr "reminder")
  /\ exists msg,
       @agent_reply ZHost 1730505601500 body_reminder = Ok (msg, true)
       /\ sourceImage msg = VNull.
Proof.
  split; [reflexivity |].
  destruct (@reminder_reply_ignores_pages ZHost 1730505601500 body_reminder eq_refl)
    as (answerText & msg & _ & Hreply & _ & Himage & _).
  exists msg. split; [exact Hreply | exact Himage].
Defined.

Lemma null_first_page_apologises_witness :
  rejects sample_store = false
  /\ parse_pages body_null_page = Ok [VNull]
  /\ @agent_reply ZHost 1730505601500 body_null_page = Throw TypeError.
Proof.
  split; [reflexivity |]. split; [reflexivity |].
  assert (Hreplied : replied (sample_world (reply_with body_null_page) Rejected)
                       body_null_page)
    by (eexists; repeat split).
  exact (proj1 (@null_first_page_apologises ZHost
                  (sample_world (reply_with body_null_page) Rejected) sample_store
                  body_null_page (VStr "rag") [] eq_refl Hreplied eq_refl eq_refl eq_refl)).
Defined.

Lemma non_text_answer_witness :
  rejects sample_store = false
  /\ parse_answer body_numeric = Ok (znum 42)
  /\ page_number page_aliased = Ok (znum 3)
  /\ exists events tr,
       handleSubmit (sample_world (reply_with body_numeric) Rejected) sample_store
       = (Ok tt,
          settled sample_store
            [submitted (sample_world (reply_with body_numeric) Rejected) sample_store;
             @apology_message ZHost 1730505601500]
            events,
          tr).
Proof.
  split; [reflexivity |]. split; [reflexivity |]. split; [reflexivity |].
  assert (Hreplied : replied (sample_world (reply_with body_numeric) Rejected) body_numeric)
    by (eexists; repeat split).
  destruct (proj1 (@non_text_answer ZHost
                     (sample_world (reply_with body_numeric) Rejected) sample_store
                     body_numeric (VStr "rag") (znum 42) page_aliased (znum 3) []
                     eq_refl Hreplied eq_refl I eq_refl eq_refl eq_refl eq_refl) eq_refl)
    as (events & tr & Hrun & _).
  exists events, tr. exact Hrun.
Defined.

Lemma cited_reply_lines_witness :
  string_includes "7" nl = false
  /\ @content_lines ZHost (VStr ("필터를 교체하세요." ++ citation_line "7"))
     = Ok ["필터를 교체하세요."; ""; "(참고: 매뉴얼 p.7 기반 답변)"].
Proof.
  split; [reflexivity |].
  exact (@cited_reply_lines ZHost "필터를 교체하세요." "7" eq_refl).
Defined.

Lemma stale_read_after_remove_witness :
  sample_data_url <> ""
  /\ preview_shown
       (store_of (reader_onloadend (Some sample_data_url)
          (store_of (handleRemoveImage
             (store_of (handleFileChange (Some sample_file) blank_store))))))
     = true.
Proof.
  assert (Hurl : sample_data_url <> "") by discriminate.
  split; [exact Hurl |].
  destruct (@stale_read_after_remove ZHost (sample_world server_error Rejected)
              blank_store sample_file sample_data_url Hurl)
    as (_ & _ & Hshown & _).
  exact Hshown.
Defined.

Lemma submitted_content_witness :
  rejects sample_store = false
  /\ content (submitted (sample_world server_error Rejected) sample_store)
     = VStr "필터는 언제 교체하나요?".
Proof.
  split; [reflexivity |].
  destruct (@submitted_content ZHost (sample_world server_error Rejected) sample_store
              eq_refl)
    as [[_ Hcontent] | [Hblank _]].
  - exact Hcontent.
  - discriminate Hblank.
Defined.

Lemma in_flight_controls_witness :
  rejects sample_store = false
  /\ loading
       (replay (firstn 6 (trace_of (handleSubmit (sample_world server_error Rejected)
                                       sample_store)))
               sample_store)
     = true.
Proof.
  split; [reflexivity |].
  assert (Hn : (4 <= 6
                <= List.length (trace_of (handleSubmit (sample_world server_error Rejected)
                                            sample_store))
                   - List.length (finally_steps sample_store))%nat).
  { split; apply Nat.leb_le; reflexivity. }
  exact (proj1 (@in_flight_controls ZHost (sample_world server_error Rejected)
                  sample_store 6 eq_refl Hn)).
Defined.

Lemma hint_gone_after_submit_witness :
  rejects sample_store = false
  /\ (2 <= 2)%nat
  /\ empty_hint_shown sample_store = true
  /\ empty_hint_shown
       (store_of (handleSubmit (sample_world server_error Rejected) sample_store))
     = false.
Proof.
  split; [reflexivity |]. split; [repeat constructor |]. split; [reflexivity |].
  exact (proj2 (@hint_gone_after_submit ZHost (sample_world server_error Rejected)
                  sample_store 2 eq_refl (le_n 2))).
Defined.

Lemma one_today_cell_witness :
  0 <= 10 < 12
  /\ 1 <= 2 <= JsDate.days_in_month 2026 10
  /\ filter is_today_cell
       (Calendar.cells
          (Calendar.make_calendar (Calendar.today (JsDate.days_from_civil 2026 10 2))))
     = [Some (Calendar.mkCell "2026-11-02" 2 true)].
Proof.
  assert (Hm : 0 <= 10 < 12) by lia.
  assert (Hd : 1 <= 2 <= JsDate.days_in_month 2026 10)
    by (change (JsDate.days_in_month 2026 10) with 30; lia).
  split; [exact Hm |]. split; [exact Hd |].
  exact (proj1 (one_today_cell 2026 10 2 Hm Hd)).
Defined.

Lemma grid_weeks_and_label_witness :
  0 <= 1 < 12
  /\ 1 <= 14 <= JsDate.days_in_month 2026 1
  /\ (List.length
        (Calendar.cells
           (Calendar.make_calendar (Calendar.today (JsDate.days_from_civil 2026 1 14))))
      = 28
      \/ List.length
           (Calendar.cells
              (Calendar.make_calendar (Calendar.today (JsDate.days_from_civil 2026 1 14))))
         = 35
      \/ List.length
           (Calendar.cells
              (Calendar.make_calendar (Calendar.today (JsDate.days_from_civil 2026 1 14))))
         = 42)%nat.
Proof.
  assert (Hm : 0 <= 1 < 12) by lia.
  assert (Hd : 1 <= 14 <= JsDate.days_in_month 2026 1)
    by (change (JsDate.days_in_month 2026 1) with 28; lia).
  split; [exact Hm |]. split; [exact Hd |].
  exact (proj1 (grid_weeks_and_label 2026 1 14 Hm Hd)).
Defined.

Lemma cell_keys_distinct_witness :
  0 <= 10 < 12
  /\ 1 <= 2 <= JsDate.days_in_month 2026 10
  /\ (List.length
        (marked_by sample_event
           (Calendar.cells
              (Calendar.make_calendar (Calendar.today (JsDate.days_from_civil 2026 10 2)))))
      <= 1)%nat.
Proof.
  assert (Hm : 0 <= 10 < 12) by lia.
  assert (Hd : 1 <= 2 <= JsDate.days_in_month 2026 10)
    by (change (JsDate.days_in_month 2026 10) with 30; lia).
  split; [exact Hm |]. split; [exact Hd |].
  destruct (@cell_keys_distinct ZHost 2026 10 2 sample_event Hm Hd)
    as (_ & _ & _ & Hmarked).
  exact Hmarked.
Defined.

Lemma grid_marks_event_days_witness :
  0 <= 10 < 12
  /\ 1 <= 2 <= JsDate.days_in_month 2026 10
  /\ forallb non_nullish [sample_event] = true
  /\ exists views,
       render_grid
         (Calendar.make_calendar (Calendar.today (JsDate.days_from_civil 2026 10 2)))
         (with_events blank_store (VArr [sample_event]))
       = Ok views.
Proof.
  assert (Hm : 0 <= 10 < 12) by lia.
  assert (Hd : 1 <= 2 <= JsDate.days_in_month 2026 10)
    by (change (JsDate.days_in_month 2026 10) with 30; lia).
  split; [exact Hm |]. split; [exact Hd |]. split; [reflexivity |].
  destruct (@grid_marks_event_days ZHost 2026 10 2 blank_store [sample_event] Hm Hd eq_refl)
    as (lead & trail & _ & Hrender & _).
  eexists. exact Hrender.
Defined.

Lemma grid_renders_iff_witness :
  0 <= 10 < 12
  /\ 1 <= 2 <= JsDate.days_in_month 2026 10
  /\ calendarEvents (store_of (fetchEvents (sample_world server_error (reply_with body_events))
                                 blank_store))
     = fetched_events (reply_with body_events).
Proof.
  assert (Hm : 0 <= 10 < 12) by lia.
  assert (Hd : 1 <= 2 <= JsDate.days_in_month 2026 10)
    by (change (JsDate.days_in_month 2026 10) with 30; lia).
  split; [exact Hm |]. split; [exact Hd |].
  destruct (@grid_renders_iff ZHost 2026 10 2
              (sample_world server_error (reply_with body_events)) blank_store Hm Hd)
    as (_ & _ & Hstored & _).
  exact Hstored.
Defined.
